(** * nova-ui: the Select and Table controls

    A shallow embedding of the two stateful components of the library,
    [Select] (components/Select/Select.tsx) and [Table]
    (components/Table/Table.tsx), and the properties of their state
    machines and derived views.

    A React function component is modelled as
    - a record of props, supplied afresh by the caller at every render,
    - a record of state cells (one field per [useState]),
    - the values derived during a render, as functions of props and state,
    - one transition function for the event handlers, returning the next
      state together with the calls made to the change callback. *)

From Stdlib Require Import ZArith Ascii String Lia Sorted.
From stdpp Require Import base list strings pretty gmap.

Local Open Scope Z_scope.

(** ** JavaScript values and the array/string primitives the code uses *)

Module JS.

(** Primitive values. Numbers are integers: NaN, infinities and fractions
    are outside the model. *)
Inductive Value : Type :=
| VUndef
| VNull
| VBool (b : bool)
| VNum (n : Z)
| VStr (s : string).

#[export] Instance Value_eq_dec : EqDecision Value.
Proof. solve_decision. Defined.

(** ToBoolean. *)
Definition truthy (v : Value) : bool :=
  match v with
  | VUndef | VNull => false
  | VBool b => b
  | VNum n => negb (n =? 0)
  | VStr s => negb (bool_decide (s = EmptyString))
  end.

(** [a || b] on values. *)
Definition or_else (a b : Value) : Value := if truthy a then a else b.

(** [Array.prototype.includes] (SameValueZero, which is equality on [Value]). *)
Definition arr_includes (l : list Value) (x : Value) : bool :=
  existsb (fun v => bool_decide (v = x)) l.

(** [l.filter(v => v !== x)]. *)
Definition arr_remove (l : list Value) (x : Value) : list Value :=
  List.filter (fun v => negb (bool_decide (v = x))) l.

(** [String.prototype.toLowerCase], on ASCII letters; other bytes are kept. *)
Definition lower_ascii (c : ascii) : ascii :=
  let n := nat_of_ascii c in
  if ((65 <=? n)%nat && (n <=? 90)%nat)%bool then ascii_of_nat (n + 32) else c.

Fixpoint toLowerCase (s : string) : string :=
  match s with
  | EmptyString => EmptyString
  | String c r => String (lower_ascii c) (toLowerCase r)
  end.

(** [s.includes(sub)]: [sub] occurs in [s] at some position. *)
Fixpoint str_includes (s sub : string) : bool :=
  String.prefix sub s ||
  match s with
  | EmptyString => false
  | String _ r => str_includes r sub
  end.

(** [Array.prototype.slice(start, end)] with its clamping of both bounds. *)
Definition slice_bound (len i : Z) : Z :=
  if i <? 0 then Z.max (len + i) 0 else Z.min i len.

Definition slice {A} (l : list A) (start stop : Z) : list A :=
  let len := Z.of_nat (length l) in
  let k := slice_bound len start in
  let fin := slice_bound len stop in
  take (Z.to_nat (fin - k)) (drop (Z.to_nat k) l).

(** [Math.ceil(n / d)] for an integer [n] and a non-zero integer [d]. *)
Definition ceil_div (n d : Z) : Z := - ((- n) / d).

(** [Array.prototype.sort(cmp)]: a stable sort. Insertion from the right
    keeps an element in front of the later elements it ties with. *)
Fixpoint sort_insert {A} (cmp : A -> A -> Z) (x : A) (l : list A) : list A :=
  match l with
  | [] => [x]
  | y :: ys => if cmp x y <=? 0 then x :: y :: ys else y :: sort_insert cmp x ys
  end.

Fixpoint sort {A} (cmp : A -> A -> Z) (l : list A) : list A :=
  match l with
  | [] => []
  | x :: xs => sort_insert cmp x (sort cmp xs)
  end.

End JS.

(** ** Select *)

Module SelectOption.
Record t : Type := mk {
  value : JS.Value;       (* string | number *)
  label : string;
  disabled : bool         (* absent = false *)
}.
End SelectOption.

Module Select.
Import JS.

(** [string | number | (string | number)[]] *)
Inductive SelValue : Type :=
| One (v : Value)
| Many (vs : list Value).

#[export] Instance SelValue_eq_dec : EqDecision SelValue.
Proof. solve_decision. Defined.

Definition sel_truthy (v : SelValue) : bool :=
  match v with
  | One x => truthy x
  | Many _ => true
  end.

(** The props the handlers read. [None] stands for [undefined]
    (prop not supplied); [onChange] records whether a callback is supplied. *)
Record SelectProps : Type := mkProps {
  options : list SelectOption.t;
  controlledValue : option SelValue;
  defaultValue : option SelValue;
  onChange : bool;
  multiple : bool;
  disabled : bool;
  searchable : bool;
  clearable : bool
}.

(** The four [useState] cells. *)
Record State : Type := mkState {
  internalValue : SelValue;
  isOpen : bool;
  searchQuery : string;
  focusedIndex : Z
}.

(** Initial state: [useState(defaultValue || (multiple ? [] : ''))],
    closed, empty query, no focused option. *)
Definition init (p : SelectProps) : State :=
  {| internalValue :=
       match defaultValue p with
       | Some d => if sel_truthy d then d
                   else if multiple p then Many [] else One (VStr "")
       | None => if multiple p then Many [] else One (VStr "")
       end;
     isOpen := false;
     searchQuery := "";
     focusedIndex := -1 |}.

(** *** Values derived at each render *)

Definition isControlled (p : SelectProps) : bool :=
  match controlledValue p with
  | Some _ => true
  | None => false
  end.

Definition currentValue (p : SelectProps) (s : State) : SelValue :=
  match controlledValue p with
  | Some v => v
  | None => internalValue s
  end.

Definition label_matches (q : string) (o : SelectOption.t) : bool :=
  str_includes (toLowerCase (SelectOption.label o)) (toLowerCase q).

Definition filteredOptions (p : SelectProps) (s : State) : list SelectOption.t :=
  if searchable p && negb (bool_decide (searchQuery s = EmptyString))
  then List.filter (label_matches (searchQuery s)) (options p)
  else options p.

Definition showClearButton (p : SelectProps) (s : State) : bool :=
  clearable p &&
  match currentValue p s with
  | Many l => multiple p && negb (bool_decide (l = []))
  | One v => negb (multiple p) && truthy v
  end.

(** The selection an option is rendered with ([aria-selected]). *)
Definition isSelected (p : SelectProps) (s : State) (o : SelectOption.t) : bool :=
  match currentValue p s with
  | Many l => multiple p && arr_includes l (SelectOption.value o)
  | One v => negb (multiple p) && bool_decide (v = SelectOption.value o)
  end.

(** *** Handlers

    A handler returns the next state and the list of arguments the
    change callback was called with, in order. *)

Definition Calls : Type := list SelValue.

Definition handleValueChange (p : SelectProps) (s : State) (newValue : SelValue)
  : State * Calls :=
  (if isControlled p then s
   else {| internalValue := newValue; isOpen := isOpen s;
           searchQuery := searchQuery s; focusedIndex := focusedIndex s |},
   if onChange p then [newValue] else []).

Definition setIsOpen (b : bool) (s : State) : State :=
  {| internalValue := internalValue s; isOpen := b;
     searchQuery := searchQuery s; focusedIndex := focusedIndex s |}.

Definition setSearchQuery (q : string) (s : State) : State :=
  {| internalValue := internalValue s; isOpen := isOpen s;
     searchQuery := q; focusedIndex := focusedIndex s |}.

Definition setFocusedIndex (i : Z) (s : State) : State :=
  {| internalValue := internalValue s; isOpen := isOpen s;
     searchQuery := searchQuery s; focusedIndex := i |}.

Definition handleOptionClick (p : SelectProps) (s : State) (optionValue : Value)
  : State * Calls :=
  if multiple p then
    let currentArray := match currentValue p s with Many l => l | One _ => [] end in
    let newValue :=
      if arr_includes currentArray optionValue
      then arr_remove currentArray optionValue
      else currentArray ++ [optionValue] in
    handleValueChange p s (Many newValue)
  else
    let '(s', c) := handleValueChange p s (One optionValue) in
    (setIsOpen false s', c).

Definition handleClear (p : SelectProps) (s : State) : State * Calls :=
  let '(s', c) :=
    handleValueChange p s (if multiple p then Many [] else One (VStr "")) in
  (setSearchQuery "" s', c).

Inductive Key : Type := Enter | Escape | ArrowDown | ArrowUp | Space | OtherKey.

Definition handleKeyDown (p : SelectProps) (s : State) (k : Key) : State * Calls :=
  if disabled p then (s, [])
  else
    let n := Z.of_nat (length (filteredOptions p s)) in
    match k with
    | Enter =>
        if isOpen s && (0 <=? focusedIndex s) && (focusedIndex s <? n) then
          match filteredOptions p s !! Z.to_nat (focusedIndex s) with
          | Some o => handleOptionClick p s (SelectOption.value o)
          | None => (s, [])
          end
        else (setIsOpen (negb (isOpen s)) s, [])
    | Escape => (setFocusedIndex (-1) (setIsOpen false s), [])
    | ArrowDown =>
        if negb (isOpen s) then (setIsOpen true s, [])
        else (setFocusedIndex
                (if focusedIndex s <? n - 1 then focusedIndex s + 1 else 0) s, [])
    | ArrowUp =>
        if isOpen s then
          (setFocusedIndex
             (if 0 <? focusedIndex s then focusedIndex s - 1 else n - 1) s, [])
        else (s, [])
    | Space =>
        if negb (searchable p) then (setIsOpen (negb (isOpen s)) s, [])
        else (s, [])
    | OtherKey => (s, [])
    end.

Definition handleClickOutside (s : State) : State :=
  setFocusedIndex (-1) (setSearchQuery "" (setIsOpen false s)).

(** *** Events delivered by the rendered tree

    An event on an element that the current render does not contain
    (an option row or the search box while closed, the clear button
    while hidden) cannot occur and leaves the state as it is. *)
Inductive Event : Type :=
| TriggerClick
| KeyDown (k : Key)
| ClickOutside
| OptionClick (i : nat)        (* click on the i-th row of the listbox *)
| OptionMouseEnter (i : nat)
| SearchInput (q : string)     (* onChange of the search box *)
| ClearClick.

Definition step (p : SelectProps) (s : State) (e : Event) : State * Calls :=
  match e with
  | TriggerClick =>
      if disabled p then (s, []) else (setIsOpen (negb (isOpen s)) s, [])
  | KeyDown k => handleKeyDown p s k
  | ClickOutside => (handleClickOutside s, [])
  | OptionClick i =>
      if isOpen s then
        match filteredOptions p s !! i with
        | Some o =>
            if SelectOption.disabled o then (s, [])
            else handleOptionClick p s (SelectOption.value o)
        | None => (s, [])
        end
      else (s, [])
  | OptionMouseEnter i =>
      if isOpen s then
        match filteredOptions p s !! i with
        | Some _ => (setFocusedIndex (Z.of_nat i) s, [])
        | None => (s, [])
        end
      else (s, [])
  | SearchInput q =>
      if isOpen s && searchable p then (setSearchQuery q s, []) else (s, [])
  | ClearClick =>
      if showClearButton p s then handleClear p s else (s, [])
  end.

(** A lifetime of the instance: each event is handled under the props of
    the render that precedes it. *)
Fixpoint run (s : State) (tr : list (SelectProps * Event)) : State * Calls :=
  match tr with
  | [] => (s, [])
  | (p, e) :: rest =>
      let '(s1, c1) := step p s e in
      let '(s2, c2) := run s1 rest in
      (s2, c1 ++ c2)
  end.

(** The same, with props that the caller never changes. *)
Definition run_fixed (p : SelectProps) (s : State) (es : list Event) : State * Calls :=
  run s (List.map (fun e => (p, e)) es).

(** *** The text of the trigger

    [getDisplayValue], for a Select without a custom [renderValue]. It
    yields a text (the placeholder, a label, the count) or, when no
    option with a non-empty label matches, the current value itself. *)
Inductive Display : Type :=
| ShowText (text : string)
| ShowRaw (v : SelValue).

(** [options.find(opt => opt.value === v)] *)
Definition findOption (p : SelectProps) (v : Value) : option SelectOption.t :=
  List.find (fun opt => bool_decide (SelectOption.value opt = v)) (options p).

(** [option?.label || raw] *)
Definition labelOr (o : option SelectOption.t) (raw : SelValue) : Display :=
  match o with
  | Some opt =>
      if bool_decide (SelectOption.label opt = EmptyString) then ShowRaw raw
      else ShowText (SelectOption.label opt)
  | None => ShowRaw raw
  end.

Definition getDisplayValue (placeholder : string) (p : SelectProps) (s : State)
  : Display :=
  match currentValue p s with
  | Many l =>
      if multiple p then
        match l with
        | [] => ShowText placeholder
        | [v] => labelOr (findOption p v) (One v)
        | _ => ShowText (pretty (length l) +:+ " items selected")
        end
      else ShowRaw (Many l)       (* no option value is an array *)
  | One v =>
      if truthy v then labelOr (findOption p v) (One v)
      else ShowText placeholder
  end.

End Select.

(** ** Table *)

Module TableColumn.
Record t : Type := mk {
  key : string;
  dataIndex : option string;
  sortable : option bool      (* [None] = not given *)
}.
End TableColumn.

Module Table.
Import JS.

(** A data record: a JavaScript object read by field name. A field that
    is absent reads as [undefined]. *)
Definition field (record : gmap string Value) (name : string) : Value :=
  default VUndef (record !! name).

(** [rowKey?: string | ((record: T) => string | number)] *)
Inductive RowKey : Type :=
| KeyField (name : string)
| KeyFn (f : gmap string Value -> Value).

Inductive Direction : Type := asc | desc.

Record SortState : Type := mkSort {
  key : option string;              (* [key: string | null] *)
  direction : option Direction
}.

Record TableProps : Type := mkProps {
  columns : list TableColumn.t;
  data : list (gmap string Value);
  sortable : bool;
  selectable : bool;
  selectedRowKeys : list Value;
  onSelectionChange : bool;              (* whether a callback is supplied *)
  rowKey : RowKey;
  pagination : bool;
  pageSize : Z
}.

Record State : Type := mkState {
  sortState : SortState;
  currentPage : Z
}.

Definition init : State :=
  {| sortState := {| key := None; direction := None |}; currentPage := 1 |}.

Definition getRowKey (p : TableProps) (record : gmap string Value) (index : Z) : Value :=
  match rowKey p with
  | KeyFn f => f record
  | KeyField name => or_else (field record name) (VNum index)
  end.

(** The updater passed to [setSortState] in [handleSort]. *)
Definition nextSort (prev : SortState) (columnKey : string) : SortState :=
  if bool_decide (key prev = Some columnKey) then
    match direction prev with
    | Some asc => {| key := Some columnKey; direction := Some desc |}
    | Some desc => {| key := None; direction := None |}
    | None => {| key := Some columnKey; direction := Some asc |}
    end
  else {| key := Some columnKey; direction := Some asc |}.

Definition handleSort (p : TableProps) (s : State) (columnKey : string) : State :=
  if negb (sortable p) then s
  else {| sortState := nextSort (sortState s) columnKey; currentPage := currentPage s |}.

(** A selection callback call: the new keys and the resolved rows. *)
Definition SelectionCall : Type := (list Value * list (gmap string Value))%type.

Definition handleRowSelection (p : TableProps) (key : Value)
  : list SelectionCall :=
  if negb (selectable p) || negb (onSelectionChange p) then []
  else
    let newSelectedKeys :=
      if arr_includes (selectedRowKeys p) key
      then arr_remove (selectedRowKeys p) key
      else selectedRowKeys p ++ [key] in
    let selectedRows :=
      List.filter (fun item => arr_includes newSelectedKeys (getRowKey p item 0))
                  (data p) in
    [(newSelectedKeys, selectedRows)].

(** [data.map((record, index) => getRowKey(record, index))] *)
Definition keysOf (p : TableProps) (rows : list (gmap string Value)) : list Value :=
  imap (fun i record => getRowKey p record (Z.of_nat i)) rows.

Definition handleSelectAll (p : TableProps) : list SelectionCall :=
  if negb (selectable p) || negb (onSelectionChange p) then []
  else
    let allKeys := keysOf p (data p) in
    let isAllSelected := forallb (arr_includes (selectedRowKeys p)) allKeys in
    [(if isAllSelected then [] else allKeys,
      if isAllSelected then [] else data p)].

(** The caller rendering again with the keys the callback handed to it. *)
Definition withSelectedRowKeys (ks : list Value) (p : TableProps) : TableProps :=
  {| columns := columns p; data := data p; sortable := sortable p;
     selectable := selectable p; selectedRowKeys := ks;
     onSelectionChange := onSelectionChange p; rowKey := rowKey p;
     pagination := pagination p; pageSize := pageSize p |}.


(** The [checked] attribute of the checkbox in the header. *)
Definition headerChecked (p : TableProps) : bool :=
  negb (bool_decide (data p = [])) &&
  forallb (arr_includes (selectedRowKeys p)) (keysOf p (data p)).

Section Sorting.

(** The relational operator [<] on cell values is a parameter of the
    model; [a > b] is [b < a]. *)
Variable js_lt : Value -> Value -> bool.

Definition findColumn (p : TableProps) (k : string) : option TableColumn.t :=
  List.find (fun col => bool_decide (TableColumn.key col = k)) (columns p).

Definition cellOf (col : TableColumn.t) (k : string) (r : gmap string Value) : Value :=
  match TableColumn.dataIndex col with
  | Some d => if bool_decide (d = EmptyString) then field r k else field r d
  | None => field r k
  end.

(** The comparator given to [sort]. *)
Definition compareRows (p : TableProps) (k : string) (d : Direction)
  (a b : gmap string Value) : Z :=
  match findColumn p k with
  | None => 0
  | Some column =>
      let aValue := cellOf column k a in
      let bValue := cellOf column k b in
      if js_lt aValue bValue then (match d with asc => -1 | desc => 1 end)
      else if js_lt bValue aValue then (match d with asc => 1 | desc => -1 end)
      else 0
  end.

Definition sortedData (p : TableProps) (s : State) : list (gmap string Value) :=
  match key (sortState s), direction (sortState s) with
  | Some k, Some d =>
      if bool_decide (k = EmptyString) then data p
      else sort (compareRows p k d) (data p)
  | _, _ => data p
  end.

Definition paginatedData (p : TableProps) (s : State) : list (gmap string Value) :=
  if negb (pagination p) then sortedData p s
  else
    let start := (currentPage s - 1) * pageSize p in
    slice (sortedData p s) start (start + pageSize p).

(** The number shown after "of" in the pager, and used by its buttons. *)
Definition totalPages (p : TableProps) (s : State) : Z :=
  ceil_div (Z.of_nat (length (sortedData p s))) (pageSize p).

Definition previousDisabled (s : State) : bool := currentPage s =? 1.

Definition nextDisabled (p : TableProps) (s : State) : bool :=
  totalPages p s <=? currentPage s.

Definition setCurrentPage (n : Z) (s : State) : State :=
  {| sortState := sortState s; currentPage := n |}.

(** The rows whose checkbox is rendered checked: each visible row is keyed
    with its position in the visible page. *)
Definition checkedRows (p : TableProps) (s : State) : list (gmap string Value) :=
  List.map snd
    (List.filter (fun ir => arr_includes (selectedRowKeys p)
                              (getRowKey p (snd ir) (Z.of_nat (fst ir))))
                 (imap (fun i r => (i, r)) (paginatedData p s))).

(** Events. A click on a disabled button, on a header of a column that
    is not rendered, or on pager buttons that are not rendered does not
    reach a handler. *)
Inductive Event : Type :=
| HeaderClick (i : nat)       (* header cell of the i-th column *)
| RowCheckbox (i : nat)       (* checkbox of the i-th visible row *)
| SelectAllCheckbox
| PreviousClick
| NextClick.

Definition step (p : TableProps) (s : State) (e : Event)
  : State * list SelectionCall :=
  match e with
  | HeaderClick i =>
      match columns p !! i with
      | Some column =>
          if bool_decide (TableColumn.sortable column = Some false) then (s, [])
          else (handleSort p s (TableColumn.key column), [])
      | None => (s, [])
      end
  | RowCheckbox i =>
      if selectable p then
        match paginatedData p s !! i with
        | Some record =>
            (s, handleRowSelection p (getRowKey p record (Z.of_nat i)))
        | None => (s, [])
        end
      else (s, [])
  | SelectAllCheckbox =>
      if selectable p then (s, handleSelectAll p) else (s, [])
  | PreviousClick =>
      if pagination p && negb (previousDisabled s)
      then (setCurrentPage (Z.max 1 (currentPage s - 1)) s, [])
      else (s, [])
  | NextClick =>
      if pagination p && negb (nextDisabled p s)
      then (setCurrentPage (Z.min (totalPages p s) (currentPage s + 1)) s, [])
      else (s, [])
  end.

Fixpoint run (s : State) (tr : list (TableProps * Event)) : State :=
  match tr with
  | [] => s
  | (p, e) :: rest => run (step p s e).1 rest
  end.

End Sorting.

(** An instance of [<] for the examples: integers by value, strings by
    code unit; operands of other or mixed types compare false. *)
Fixpoint str_ltb (a b : string) : bool :=
  match a, b with
  | EmptyString, EmptyString => false
  | EmptyString, String _ _ => true
  | String _ _, EmptyString => false
  | String x a', String y b' =>
      if (nat_of_ascii x <? nat_of_ascii y)%nat then true
      else if (nat_of_ascii y <? nat_of_ascii x)%nat then false
      else str_ltb a' b'
  end.

Definition prim_lt (a b : Value) : bool :=
  match a, b with
  | VNum x, VNum y => x <? y
  | VStr x, VStr y => str_ltb x y
  | _, _ => false
  end.

End Table.

(** ** Data of the test-suite and of the stories *)

Module Fixtures.
Import JS Select.

(** ** The fruit list of the test-suite *)

Definition fruit (v l : string) (d : bool) : SelectOption.t :=
  SelectOption.mk (VStr v) l d.

Definition mockOptions : list SelectOption.t :=
  [ fruit "apple" "Apple" false; fruit "banana" "Banana" false;
    fruit "cherry" "Cherry" false; fruit "date" "Date" true;
    fruit "elderberry" "Elderberry" false ].

(** Uncontrolled, single, with a change callback. *)
Definition plainProps : SelectProps :=
  {| options := mockOptions; controlledValue := None; defaultValue := None;
     onChange := true; multiple := false; disabled := false;
     searchable := false; clearable := false |}.

Definition searchProps : SelectProps :=
  {| options := mockOptions; controlledValue := None; defaultValue := None;
     onChange := true; multiple := false; disabled := false;
     searchable := true; clearable := false |}.

Definition multiProps : SelectProps :=
  {| options := mockOptions; controlledValue := None; defaultValue := None;
     onChange := true; multiple := true; disabled := false;
     searchable := false; clearable := false |}.

Definition controlledProps (v : SelValue) : SelectProps :=
  {| options := mockOptions; controlledValue := Some v; defaultValue := None;
     onChange := true; multiple := false; disabled := false;
     searchable := false; clearable := true |}.

(** The users of the Table stories and the columns of its tests. *)
Definition user (id : Z) (name : string) (age : Z) : gmap string Value :=
  <["id" := VNum id]> (<["name" := VStr name]> (<["age" := VNum age]> ∅)).

Definition column (k : string) (sortable : option bool) : TableColumn.t :=
  {| TableColumn.key := k; TableColumn.dataIndex := None;
     TableColumn.sortable := sortable |}.

Definition mockColumns : list TableColumn.t :=
  [ column "name" (Some true); column "age" (Some true);
    column "email" None; column "status" None ].

Definition sampleData : list (gmap string Value) :=
  [ user 1 "John Doe" 28; user 2 "Jane Smith" 32; user 3 "Bob Johnson" 45;
    user 4 "Alice Brown" 29; user 5 "Charlie Wilson" 38 ].

Definition tableProps (rows : list (gmap string Value)) (pageSize : Z)
  : Table.TableProps :=
  {| Table.columns := mockColumns; Table.data := rows; Table.sortable := true;
     Table.selectable := true; Table.selectedRowKeys := [];
     Table.onSelectionChange := true; Table.rowKey := Table.KeyField "id";
     Table.pagination := true; Table.pageSize := pageSize |}.

(** Two rows without an [id] field. *)
Definition anonymous (name : string) : gmap string Value :=
  <["name" := VStr name]> ∅.

Definition keylessData : list (gmap string Value) :=
  [ anonymous "Ann"; anonymous "Ben" ].

(** A numeric option list with the value 0, and a default of 0. *)
Definition digitOptions : list SelectOption.t :=
  [ SelectOption.mk (VNum 0) "Zero" false; SelectOption.mk (VNum 1) "One" false ].

Definition digitProps : SelectProps :=
  {| options := digitOptions; controlledValue := None;
     defaultValue := Some (One (VNum 0));
     onChange := true; multiple := false; disabled := false;
     searchable := false; clearable := true |}.

Definition disabledProps : SelectProps :=
  {| options := mockOptions; controlledValue := None;
     defaultValue := Some (One (VStr "banana"));
     onChange := true; multiple := false; disabled := true;
     searchable := false; clearable := true |}.

(** A table without sorting, selection or paging. *)
Definition plainTable : Table.TableProps :=
  {| Table.columns := mockColumns; Table.data := sampleData;
     Table.sortable := false; Table.selectable := false;
     Table.selectedRowKeys := []; Table.onSelectionChange := false;
     Table.rowKey := Table.KeyField "id"; Table.pagination := false;
     Table.pageSize := 10 |}.


End Fixtures.

(** ** Notions used to state the properties *)

Module Derived.
Import JS Select.

(** The value a toggle of [x] computes in multiple mode. *)
Definition toggled (cur : SelValue) (x : Value) : SelValue :=
  let currentArray := match cur with Many l => l | One _ => [] end in
  Many (if arr_includes currentArray x then arr_remove currentArray x
        else currentArray ++ [x]).

Definition newValueOf (p : SelectProps) (s : State) (x : Value) : SelValue :=
  if multiple p then toggled (currentValue p s) x else One x.

(** The value the clear button sets. *)
Definition emptyValue (p : SelectProps) : SelValue :=
  if multiple p then Many [] else One (VStr "").

(** One case per event: the option a click or Enter commits, if any. *)
Definition committed (p : SelectProps) (s : State) (e : Event) : option Value :=
  match e with
  | OptionClick i =>
      if isOpen s then
        match filteredOptions p s !! i with
        | Some o => if SelectOption.disabled o then None
                    else Some (SelectOption.value o)
        | None => None
        end
      else None
  | KeyDown Enter =>
      if negb (disabled p) && isOpen s && (0 <=? focusedIndex s) &&
         (focusedIndex s <? Z.of_nat (length (filteredOptions p s)))
      then SelectOption.value <$> filteredOptions p s !! Z.to_nat (focusedIndex s)
      else None
  | _ => None
  end.

(** Events that can reach the change callback. *)
Definition committing (e : Event) : bool :=
  match e with
  | OptionClick _ | KeyDown Enter | ClearClick => true
  | _ => false
  end.

(** A value that belongs to an option that is not disabled. *)
Definition enabledValue (p : SelectProps) (v : Value) : Prop :=
  exists o, In o (options p) /\ SelectOption.disabled o = false /\
            SelectOption.value o = v.

(** The selection holds nothing but the cleared value or values of
    enabled options. *)
Definition onlyEnabled (p : SelectProps) (v : SelValue) : Prop :=
  match v with
  | Many l => Forall (enabledValue p) l
  | One x => x = VStr "" \/ enabledValue p x
  end.

(** A multiple selection without repetition. *)
Definition distinct (v : SelValue) : Prop :=
  match v with
  | Many l => NoDup l
  | One _ => True
  end.

(** The value an event asks the selection to become, if any: a toggle of
    the committed option, or the cleared value. *)
Definition requested (p : SelectProps) (s : State) (e : Event) : option SelValue :=
  match committed p s e with
  | Some x => Some (newValueOf p s x)
  | None =>
      match e with
      | ClearClick => if showClearButton p s then Some (emptyValue p) else None
      | _ => None
      end
  end.

End Derived.

(** ** Notions used to state the properties of Table *)

Module TableDerived.
Import JS Table.

(** Events of the row checkboxes and of the header checkbox. *)
Definition selectionEvent (e : Event) : bool :=
  match e with
  | RowCheckbox _ | SelectAllCheckbox => true
  | _ => false
  end.

(** The key of a record does not depend on the index it is asked with:
    the key is a function, or every record has a truthy key field. *)
Definition indexFree (p : TableProps) : Prop :=
  match rowKey p with
  | KeyFn _ => True
  | KeyField name => Forall (fun r => truthy (field r name) = true) (data p)
  end.

(** A sort state is either no-sort or a column with a direction. *)
Definition wellFormed (ss : SortState) : Prop :=
  key ss = None <-> direction ss = None.

End TableDerived.

(** * Properties of Select *)

Module SelectProofs.
Import JS Select Fixtures.

(** ** Strings *)








(** ** Frame lemmas for the handlers *)

Lemma handleValueChange_controlled p s v :
  isControlled p = true -> handleValueChange p s v = (s, if onChange p then [v] else []).
Proof. unfold handleValueChange. intros ->. reflexivity. Qed.

Lemma step_internal_controlled p s e :
  isControlled p = true -> internalValue (step p s e).1 = internalValue s.
Proof.
  intros Hc.
  destruct e as [|k| |i|i|q|]; simpl.
  - destruct (disabled p); reflexivity.
  - unfold handleKeyDown. destruct (disabled p); [reflexivity|].
    destruct k; simpl;
      repeat match goal with
             | |- context [if ?b then _ else _] => destruct b; simpl
             | |- context [match ?o with Some _ => _ | None => _ end] =>
                 destruct o; simpl
             end;
      unfold handleOptionClick; rewrite ?handleValueChange_controlled by exact Hc;
      try destruct (multiple p); simpl; reflexivity.
  - reflexivity.
  - destruct (isOpen s); [|reflexivity].
    destruct (filteredOptions p s !! i) as [o|]; [|reflexivity].
    destruct (SelectOption.disabled o); [reflexivity|].
    unfold handleOptionClick. rewrite !handleValueChange_controlled by exact Hc.
    destruct (multiple p); reflexivity.
  - destruct (isOpen s); [|reflexivity].
    destruct (filteredOptions p s !! i); reflexivity.
  - destruct (isOpen s && searchable p); reflexivity.
  - destruct (showClearButton p s); [|reflexivity].
    unfold handleClear. rewrite handleValueChange_controlled by exact Hc.
    reflexivity.
Qed.

Lemma run_fixed_cons p s e es :
  run_fixed p s (e :: es) =
  let '(s1, c1) := step p s e in
  let '(s2, c2) := run_fixed p s1 es in (s2, c1 ++ c2).
Proof. reflexivity. Qed.

Lemma run_fixed_internal_controlled p s es :
  isControlled p = true -> internalValue (run_fixed p s es).1 = internalValue s.
Proof.
  intros Hc. revert s. induction es as [|e es IH]; intros s; [reflexivity|].
  rewrite run_fixed_cons.
  pose proof (step_internal_controlled p s e Hc) as Hs.
  destruct (step p s e) as [s1 c1]. specialize (IH s1).
  destruct (run_fixed p s1 es) as [s2 c2]. simpl in *. congruence.
Qed.

(** A click on a disabled option row changes nothing and calls nothing. *)
Lemma click_disabled_noop p s i o :
  filteredOptions p s !! i = Some o -> SelectOption.disabled o = true ->
  step p s (OptionClick i) = (s, []).
Proof.
  intros Hi Hd. simpl. destruct (isOpen s); [|reflexivity].
  rewrite Hi, Hd. reflexivity.
Qed.

(** In multiple mode a second click on an option removes it again. *)
Example multi_toggle_twice :
  run_fixed multiProps (init multiProps)
    [TriggerClick; OptionClick 0; OptionClick 1; OptionClick 0] =
  ({| internalValue := Many [VStr "banana"]; isOpen := true;
      searchQuery := ""; focusedIndex := -1 |},
   [Many [VStr "apple"]; Many [VStr "apple"; VStr "banana"];
    Many [VStr "banana"]]).
Proof. reflexivity. Qed.

(** ** Disabled options *)

(** C1. A disabled option must never be toggled. The click handler of an
    option row checks the flag, the Enter branch of [handleKeyDown] does
    not: with the fruit list open and the disabled option "date" (row 3)
    focused by four ArrowDown presses, the click on that row changes
    nothing and calls nothing, whereas Enter selects "date", calls the
    change callback with it and closes the list. *)
Theorem C1_enter_commits_disabled_option :
  let es := [TriggerClick; KeyDown ArrowDown; KeyDown ArrowDown;
             KeyDown ArrowDown; KeyDown ArrowDown] in
  let s := (run_fixed plainProps (init plainProps) es).1 in
  isOpen s = true /\ focusedIndex s = 3 /\
  (SelectOption.disabled <$> filteredOptions plainProps s !! 3%nat) = Some true /\
  step plainProps s (OptionClick 3) = (s, []) /\
  step plainProps s (KeyDown Enter) =
    ({| internalValue := One (VStr "date"); isOpen := false;
        searchQuery := ""; focusedIndex := 3 |}, [One (VStr "date")]).
Proof. vm_compute. repeat split. Qed.

(** ** The search query across closing transitions *)

(** The query after one event. *)
Lemma query_step (p : SelectProps) (s : State) (e : Event) :
  searchQuery (step p s e).1 =
    match e with
    | ClickOutside => EmptyString
    | ClearClick => if showClearButton p s then EmptyString else searchQuery s
    | SearchInput q => if isOpen s && searchable p then q else searchQuery s
    | _ => searchQuery s
    end.
Proof.
  destruct e as [|k| |i|i|q|]; simpl.
  - destruct (disabled p); reflexivity.
  - unfold handleKeyDown. destruct (disabled p); [reflexivity|].
    destruct k; simpl;
      repeat match goal with
             | |- context [if ?b then _ else _] => destruct b; simpl
             | |- context [match ?o with Some _ => _ | None => _ end] =>
                 destruct o; simpl
             end;
      unfold handleOptionClick, handleValueChange;
      repeat match goal with
             | |- context [if ?b then _ else _] => destruct b; simpl
             end; reflexivity.
  - reflexivity.
  - destruct (isOpen s); [|reflexivity].
    destruct (filteredOptions p s !! i) as [o|]; [|reflexivity].
    destruct (SelectOption.disabled o); [reflexivity|].
    unfold handleOptionClick, handleValueChange.
    destruct (multiple p), (isControlled p); reflexivity.
  - destruct (isOpen s); [|reflexivity].
    destruct (filteredOptions p s !! i); reflexivity.
  - destruct (isOpen s && searchable p); reflexivity.
  - destruct (showClearButton p s); [|reflexivity].
    unfold handleClear, handleValueChange. destruct (isControlled p); reflexivity.
Qed.



(** Without the search box the query never leaves its initial value. *)
Lemma query_empty_unsearchable (p : SelectProps) (es : list Event) :
  searchable p = false -> searchQuery (run_fixed p (init p) es).1 = EmptyString.
Proof.
  intros Hs.
  assert (H : forall s, searchQuery s = EmptyString ->
                        searchQuery (run_fixed p s es).1 = EmptyString).
  { induction es as [|e es IH]; intros s Hq; [exact Hq|].
    rewrite run_fixed_cons.
    pose proof (query_step p s e) as Hstep.
    destruct (step p s e) as [s1 c1]. specialize (IH s1).
    destruct (run_fixed p s1 es) as [s2 c2]. simpl in *. apply IH.
    rewrite Hstep. destruct e; try exact Hq; try reflexivity.
    - rewrite Hs, andb_false_r. exact Hq.
    - destruct (showClearButton p s); [reflexivity | exact Hq]. }
  apply H. reflexivity.
Qed.

(** ** Controlled and uncontrolled selection *)

Lemma currentValue_controlled p s v :
  controlledValue p = Some v -> currentValue p s = v.
Proof. unfold currentValue. intros ->. reflexivity. Qed.

Lemma isControlled_Some p v : controlledValue p = Some v -> isControlled p = true.
Proof. unfold isControlled. intros ->. reflexivity. Qed.

(** C3. With an external value [v] supplied and never changed by the
    caller, after any sequence of events (toggles by click or by Enter
    among them) the rendered selection is still [v], the internal value
    cell is untouched, and every option is rendered selected exactly as
    before. *)
Theorem C3_controlled_selection_is_external
  (p : SelectProps) (v : SelValue) (s : State) (es : list Event) :
  controlledValue p = Some v ->
  currentValue p (run_fixed p s es).1 = v /\
  internalValue (run_fixed p s es).1 = internalValue s /\
  (forall o, isSelected p (run_fixed p s es).1 o = isSelected p s o).
Proof.
  intros Hv. split; [|split].
  - apply currentValue_controlled. exact Hv.
  - apply run_fixed_internal_controlled. eapply isControlled_Some. exact Hv.
  - intros o. unfold isSelected.
    rewrite !(currentValue_controlled _ _ _ Hv). reflexivity.
Qed.

Lemma C3_controlled_selection_is_external_witness :
  let p := controlledProps (One (VStr "banana")) in
  let es := [TriggerClick; OptionClick 0; TriggerClick; OptionClick 2] in
  controlledValue p = Some (One (VStr "banana")) /\
  (run_fixed p (init p) es).2 = [One (VStr "apple"); One (VStr "cherry")] /\
  currentValue p (run_fixed p (init p) es).1 = One (VStr "banana").
Proof.
  split; [reflexivity|]. split; [reflexivity|].
  apply (C3_controlled_selection_is_external
           (controlledProps (One (VStr "banana"))) (One (VStr "banana"))
           (init (controlledProps (One (VStr "banana"))))
           [TriggerClick; OptionClick 0; TriggerClick; OptionClick 2]).
  reflexivity.
Defined.

(** C4, as stated, fails: the mode is read off the props of each render.
    An instance created without [value] stores the toggled "apple"; when
    the caller then supplies [value = "banana"] the same instance is
    controlled, renders "banana" and no longer stores toggles; when the
    caller omits the prop again it is uncontrolled again and renders the
    stored "apple". *)
Lemma C4_mode_changes_with_props :
  let p0 := plainProps in
  let p1 := controlledProps (One (VStr "banana")) in
  let s1 := (run (init p0) [(p0, TriggerClick); (p0, OptionClick 0)]).1 in
  let s2 := (run s1 [(p1, TriggerClick); (p1, OptionClick 2)]).1 in
  isControlled p0 = false /\
  currentValue p0 s1 = One (VStr "apple") /\
  isControlled p1 = true /\
  currentValue p1 s1 = One (VStr "banana") /\
  internalValue s2 = One (VStr "apple") /\
  currentValue p0 s2 = One (VStr "apple").
Proof. vm_compute. repeat split. Qed.

(** C4, amended. At every render the mode is decided by that render's
    props alone: the instance is controlled exactly when a value is
    supplied at that render, whatever the state and the history; the
    rendered selection and the effect of a value change follow the mode
    of the current render. *)
Theorem C4_mode_follows_current_props
  (p : SelectProps) (s : State) (newValue : SelValue) :
  isControlled p = bool_decide (controlledValue p <> None) /\
  currentValue p s = default (internalValue s) (controlledValue p) /\
  (handleValueChange p s newValue).1 =
    (if isControlled p then s
     else {| internalValue := newValue; isOpen := isOpen s;
             searchQuery := searchQuery s; focusedIndex := focusedIndex s |}).
Proof.
  unfold isControlled, currentValue, handleValueChange, isControlled.
  destruct (controlledValue p); repeat split.
Qed.

(** ** The search filter *)



(** ** Arrow keys *)

(** C9, as stated, fails at the sentinel: on the open fruit list (five
    options) with nothing focused, ArrowUp focuses the last option,
    index 4, whereas (-1 - 1 + 5) mod 5 is 3. It also fails for an index
    left beyond the list by a narrower query: with row 4 focused and the
    query "e" (four matches), ArrowDown gives 0, whereas (4 + 1) mod 4
    is 1. *)
Lemma C9_arrow_up_from_sentinel :
  let s := (run_fixed plainProps (init plainProps) [TriggerClick]).1 in
  let n := Z.of_nat (length (filteredOptions plainProps s)) in
  let s' := (run_fixed searchProps (init searchProps)
               [TriggerClick; OptionMouseEnter 4; SearchInput "e"]).1 in
  let n' := Z.of_nat (length (filteredOptions searchProps s')) in
  (isOpen s = true /\ focusedIndex s = -1 /\ n = 5 /\
   focusedIndex (step plainProps s (KeyDown ArrowUp)).1 = 4 /\
   (focusedIndex s - 1 + n) mod n = 3) /\
  (isOpen s' = true /\ focusedIndex s' = 4 /\ n' = 4 /\
   focusedIndex (step searchProps s' (KeyDown ArrowDown)).1 = 0 /\
   (focusedIndex s' + 1) mod n' = 1).
Proof. vm_compute. repeat split. Qed.

(** C9, amended. On an open, enabled Select with [n > 0] filtered options:
    ArrowDown yields (i + 1) mod n for every index i from -1 to n - 1;
    ArrowUp yields (i - 1 + n) mod n for every index i from 0 to n - 1,
    and n - 1 from the sentinel -1. From an index at or beyond n,
    ArrowDown yields 0 and ArrowUp yields i - 1. *)
Theorem C9_arrow_navigation (p : SelectProps) (s : State) :
  let n := Z.of_nat (length (filteredOptions p s)) in
  disabled p = false -> isOpen s = true -> 0 < n ->
  (-1 <= focusedIndex s < n ->
   focusedIndex (step p s (KeyDown ArrowDown)).1 = (focusedIndex s + 1) mod n) /\
  (0 <= focusedIndex s < n ->
   focusedIndex (step p s (KeyDown ArrowUp)).1 = (focusedIndex s - 1 + n) mod n) /\
  (focusedIndex s = -1 ->
   focusedIndex (step p s (KeyDown ArrowUp)).1 = n - 1) /\
  (n <= focusedIndex s ->
   focusedIndex (step p s (KeyDown ArrowDown)).1 = 0 /\
   focusedIndex (step p s (KeyDown ArrowUp)).1 = focusedIndex s - 1).
Proof.
  intros n Hd Ho Hn. simpl. unfold handleKeyDown. rewrite Hd, Ho. simpl.
  fold n. repeat split.
  - intros Hi. destruct (Z.ltb_spec (focusedIndex s) (n - 1)).
    + rewrite Z.mod_small by lia. reflexivity.
    + replace (focusedIndex s + 1) with n by lia. rewrite Z.mod_same by lia.
      reflexivity.
  - intros Hi. destruct (Z.ltb_spec 0 (focusedIndex s)).
    + replace (focusedIndex s - 1 + n) with (focusedIndex s - 1 + 1 * n) by lia.
      rewrite Z.mod_add by lia. rewrite Z.mod_small by lia. reflexivity.
    + replace (focusedIndex s) with 0 by lia. simpl.
      rewrite Z.mod_small by lia. lia.
  - intros ->. reflexivity.
  - destruct (Z.ltb_spec (focusedIndex s) (n - 1)); [lia | reflexivity].
  - destruct (Z.ltb_spec 0 (focusedIndex s)); [reflexivity | lia].
Qed.

Lemma C9_arrow_navigation_witness :
  let s := {| internalValue := One (VStr ""); isOpen := true;
              searchQuery := ""; focusedIndex := 4 |} in
  disabled plainProps = false /\ isOpen s = true /\
  0 < Z.of_nat (length (filteredOptions plainProps s)) /\
  focusedIndex (step plainProps s (KeyDown ArrowDown)).1 = (4 + 1) mod 5 /\
  focusedIndex (step plainProps s (KeyDown ArrowUp)).1 = (4 - 1 + 5) mod 5.
Proof.
  pose proof (C9_arrow_navigation plainProps
                {| internalValue := One (VStr ""); isOpen := true;
                   searchQuery := ""; focusedIndex := 4 |}
                eq_refl eq_refl eq_refl) as (Hd & Hu & _).
  split; [reflexivity|]. split; [reflexivity|]. split; [reflexivity|].
  split; [apply Hd | apply Hu]; simpl; lia.
Defined.

End SelectProofs.

(** * Properties of Table *)

Module TableProofs.
Import JS Table Fixtures.

(** ** Arithmetic of the pager *)

(** [ceil_div n d] is the least [t] with [n <= t * d]. *)
Lemma ceil_div_spec (n d : Z) :
  0 < d -> (ceil_div n d - 1) * d < n <= ceil_div n d * d.
Proof.
  intros Hd. unfold ceil_div.
  pose proof (Z.div_mod (- n) d ltac:(lia)) as E.
  pose proof (Z.mod_pos_bound (- n) d Hd) as B.
  nia.
Qed.

Lemma ceil_div_zero (d : Z) : ceil_div 0 d = 0.
Proof. unfold ceil_div. simpl. rewrite Zdiv_0_l. reflexivity. Qed.

Lemma ceil_div_pos (n d : Z) : 0 < d -> 0 < n -> 1 <= ceil_div n d.
Proof. intros Hd Hn. pose proof (ceil_div_spec n d Hd). nia. Qed.

(** ** Sorting keeps the rows *)

Lemma sort_insert_length {A} (cmp : A -> A -> Z) (x : A) (l : list A) :
  length (sort_insert cmp x l) = S (length l).
Proof.
  induction l as [|y ys IH]; simpl; [reflexivity|].
  destruct (cmp x y <=? 0); simpl; [reflexivity | rewrite IH; reflexivity].
Qed.

Lemma sort_length {A} (cmp : A -> A -> Z) (l : list A) :
  length (sort cmp l) = length l.
Proof.
  induction l as [|x xs IH]; simpl; [reflexivity|].
  rewrite sort_insert_length, IH. reflexivity.
Qed.

Lemma sort_insert_perm {A} (cmp : A -> A -> Z) (x : A) (l : list A) :
  sort_insert cmp x l ≡ₚ x :: l.
Proof.
  induction l as [|y ys IH]; simpl; [reflexivity|].
  destruct (cmp x y <=? 0); [reflexivity|].
  rewrite IH. apply Permutation_swap.
Qed.

Lemma sort_perm {A} (cmp : A -> A -> Z) (l : list A) : sort cmp l ≡ₚ l.
Proof.
  induction l as [|x xs IH]; simpl; [reflexivity|].
  rewrite sort_insert_perm, IH. reflexivity.
Qed.

Section WithLt.
Variable js_lt : Value -> Value -> bool.

Lemma sortedData_length p s :
  length (sortedData js_lt p s) = length (data p).
Proof.
  unfold sortedData.
  destruct (key (sortState s)) as [k|]; [|reflexivity].
  destruct (direction (sortState s)) as [d|]; [|reflexivity].
  destruct (bool_decide (k = EmptyString)); [reflexivity | apply sort_length].
Qed.

Lemma totalPages_data p s :
  totalPages js_lt p s = ceil_div (Z.of_nat (length (data p))) (pageSize p).
Proof. unfold totalPages. rewrite sortedData_length. reflexivity. Qed.

(** ** One step of the pager *)

Lemma step_currentPage p s e :
  currentPage (step js_lt p s e).1 =
    match e with
    | PreviousClick =>
        if pagination p then Z.max 1 (currentPage s - 1) else currentPage s
    | NextClick =>
        if pagination p && (currentPage s <? totalPages js_lt p s)
        then currentPage s + 1 else currentPage s
    | _ => currentPage s
    end.
Proof.
  destruct e as [i|i| | |]; simpl.
  - destruct (columns p !! i) as [c|]; [|reflexivity].
    destruct (bool_decide (TableColumn.sortable c = Some false)); [reflexivity|].
    unfold handleSort. destruct (sortable p); reflexivity.
  - destruct (selectable p); [|reflexivity].
    destruct (paginatedData js_lt p s !! i); reflexivity.
  - destruct (selectable p); reflexivity.
  - unfold previousDisabled. destruct (pagination p); simpl; [|reflexivity].
    destruct (Z.eqb_spec (currentPage s) 1) as [E|E]; simpl; [rewrite E|]; reflexivity.
  - unfold nextDisabled. destruct (pagination p); simpl; [|reflexivity].
    destruct (Z.leb_spec (totalPages js_lt p s) (currentPage s));
      destruct (Z.ltb_spec (currentPage s) (totalPages js_lt p s)); simpl; lia.
Qed.





(** ** The visible window *)


Lemma slice_window {A} (l : list A) (start size : Z) :
  0 <= start -> 0 <= size ->
  slice l start (start + size) = take (Z.to_nat size) (drop (Z.to_nat start) l).
Proof.
  intros Hs Hz. unfold slice, slice_bound.
  destruct (Z.ltb_spec start 0); [lia|].
  destruct (Z.ltb_spec (start + size) 0); [lia|].
  set (n := Z.of_nat (length l)).
  destruct (Z.le_gt_cases n start) as [Hge|Hlt].
  - rewrite (Z.min_r start n) by lia.
    rewrite !drop_ge by lia. rewrite !take_nil. reflexivity.
  - rewrite (Z.min_l start n) by lia.
    destruct (Z.le_gt_cases (start + size) n) as [Hin|Hout].
    + rewrite Z.min_l by lia. f_equal. lia.
    + rewrite Z.min_r by lia.
      rewrite !take_ge; [reflexivity | |]; rewrite length_drop; lia.
Qed.


End WithLt.

(** ** Sorting by header clicks *)

(** C5. On a sortable table, three clicks on the header of one sortable
    column take the sort state from no-sort to that column ascending, to
    that column descending, and back to no-sort, where the state is the
    one before the clicks and the rows are displayed in the order of the
    input; a click on a sortable column with another key, made while the
    first is sorted in either direction, gives that column ascending. *)
Theorem C5_sort_cycle (js_lt : Value -> Value -> bool)
  (p : TableProps) (s : State) (i : nat) (column : TableColumn.t) :
  sortable p = true ->
  columns p !! i = Some column ->
  TableColumn.sortable column <> Some false ->
  sortState s = {| key := None; direction := None |} ->
  let k := TableColumn.key column in
  let s1 := (step js_lt p s (HeaderClick i)).1 in
  let s2 := (step js_lt p s1 (HeaderClick i)).1 in
  let s3 := (step js_lt p s2 (HeaderClick i)).1 in
  sortState s1 = {| key := Some k; direction := Some asc |} /\
  sortState s2 = {| key := Some k; direction := Some desc |} /\
  sortState s3 = {| key := None; direction := None |} /\
  s3 = s /\
  sortedData js_lt p s3 = data p /\
  paginatedData js_lt p s3 = paginatedData js_lt p s /\
  (forall (j : nat) (other : TableColumn.t),
     columns p !! j = Some other ->
     TableColumn.sortable other <> Some false ->
     TableColumn.key other <> k ->
     sortState (step js_lt p s1 (HeaderClick j)).1 =
       {| key := Some (TableColumn.key other); direction := Some asc |} /\
     sortState (step js_lt p s2 (HeaderClick j)).1 =
       {| key := Some (TableColumn.key other); direction := Some asc |}).
Proof.
  intros Hs Hc Hcs H0 k s1 s2 s3.
  assert (Hclick : forall st j c, columns p !! j = Some c ->
            TableColumn.sortable c <> Some false ->
            (step js_lt p st (HeaderClick j)).1 =
              {| sortState := nextSort (sortState st) (TableColumn.key c);
                 currentPage := currentPage st |}).
  { intros st j c Hj Hn. simpl. rewrite Hj.
    rewrite bool_decide_eq_false_2 by exact Hn.
    unfold handleSort. rewrite Hs. reflexivity. }
  assert (E1 : s1 = {| sortState := {| key := Some k; direction := Some asc |};
                       currentPage := currentPage s |}).
  { unfold s1. rewrite (Hclick s i column Hc Hcs), H0. reflexivity. }
  assert (E2 : s2 = {| sortState := {| key := Some k; direction := Some desc |};
                       currentPage := currentPage s |}).
  { unfold s2. rewrite (Hclick s1 i column Hc Hcs), E1. simpl.
    unfold nextSort. simpl. rewrite bool_decide_eq_true_2 by reflexivity.
    reflexivity. }
  assert (E3 : s3 = s).
  { unfold s3. rewrite (Hclick s2 i column Hc Hcs), E2. simpl.
    unfold nextSort. simpl. rewrite bool_decide_eq_true_2 by reflexivity.
    destruct s as [ss cp]. simpl in *. rewrite H0. reflexivity. }
  split; [rewrite E1; reflexivity|].
  split; [rewrite E2; reflexivity|].
  split; [rewrite E3; exact H0|].
  split; [exact E3|].
  split; [rewrite E3; unfold sortedData; rewrite H0; reflexivity|].
  split; [rewrite E3; reflexivity|].
  intros j other Hj Hjs Hne.
  assert (Hk : Some k <> Some (TableColumn.key other)) by congruence.
  split.
  - rewrite (Hclick s1 j other Hj Hjs), E1. simpl. unfold nextSort. simpl.
    rewrite bool_decide_eq_false_2 by exact Hk. reflexivity.
  - rewrite (Hclick s2 j other Hj Hjs), E2. simpl. unfold nextSort. simpl.
    rewrite bool_decide_eq_false_2 by exact Hk. reflexivity.
Qed.

Lemma C5_sort_cycle_witness :
  let p := tableProps sampleData 10 in
  let s1 := (step prim_lt p init (HeaderClick 0)).1 in
  let s2 := (step prim_lt p s1 (HeaderClick 0)).1 in
  let s3 := (step prim_lt p s2 (HeaderClick 0)).1 in
  sortable p = true /\
  columns p !! 0%nat = Some (column "name" (Some true)) /\
  TableColumn.sortable (column "name" (Some true)) <> Some false /\
  sortState init = {| key := None; direction := None |} /\
  sortState s1 = {| key := Some "name"; direction := Some asc |} /\
  sortState s2 = {| key := Some "name"; direction := Some desc |} /\
  sortedData prim_lt p s3 = sampleData /\
  sortState (step prim_lt p s2 (HeaderClick 1)).1 =
    {| key := Some "age"; direction := Some asc |}.
Proof.
  pose proof (C5_sort_cycle prim_lt (tableProps sampleData 10) init 0
                (column "name" (Some true)) eq_refl eq_refl
                ltac:(discriminate) eq_refl)
    as (H1 & H2 & _ & _ & H5 & _ & H7).
  destruct (H7 1%nat (column "age" (Some true)) eq_refl
              ltac:(discriminate) ltac:(discriminate)) as [_ H8].
  split; [reflexivity|]. split; [reflexivity|]. split; [discriminate|].
  split; [reflexivity|]. repeat split; assumption.
Defined.

(** The order of the story rows under the clicks of the test-suite. *)
Example sort_name_ascending :
  List.map (fun r => field r "name")
    (sortedData prim_lt (tableProps sampleData 10)
       (run prim_lt init [(tableProps sampleData 10, HeaderClick 0)])) =
  [VStr "Alice Brown"; VStr "Bob Johnson"; VStr "Charlie Wilson";
   VStr "Jane Smith"; VStr "John Doe"].
Proof. vm_compute. reflexivity. Qed.

Example sort_name_descending :
  List.map (fun r => field r "name")
    (sortedData prim_lt (tableProps sampleData 10)
       (run prim_lt init [(tableProps sampleData 10, HeaderClick 0);
                          (tableProps sampleData 10, HeaderClick 0)])) =
  [VStr "John Doe"; VStr "Jane Smith"; VStr "Charlie Wilson";
   VStr "Bob Johnson"; VStr "Alice Brown"].
Proof. vm_compute. reflexivity. Qed.

(** The sorted rows are a rearrangement of the input. *)
Lemma sortedData_perm (js_lt : Value -> Value -> bool) p s :
  sortedData js_lt p s ≡ₚ data p.
Proof.
  unfold sortedData.
  destruct (key (sortState s)) as [k|]; [|reflexivity].
  destruct (direction (sortState s)) as [d|]; [|reflexivity].
  destruct (bool_decide (k = EmptyString)); [reflexivity | apply sort_perm].
Qed.

(** ** The current page *)




(** ** The pager *)

(** C7, as stated, fails on the empty row list: the pager computes
    ceil(0 / 10) = 0 pages, not max(1, 0) = 1. *)
Lemma C7_no_rows_no_pages :
  let p := tableProps [] 10 in
  sortedData prim_lt p init = [] /\
  totalPages prim_lt p init = 0 /\
  Z.max 1 (ceil_div (Z.of_nat (length (sortedData prim_lt p init))) (pageSize p)) = 1.
Proof. vm_compute. repeat split. Qed.

(** C7, amended. With pagination on and a positive page size, the number
    of pages is ceil(|rows| / pageSize): the least t with |rows| <= t *
    pageSize, which is 0 for the empty list and at least 1 otherwise. The
    visible window is rows[(currentPage-1)*pageSize : currentPage*pageSize].
    Previous goes to max(1, currentPage - 1); Next goes to currentPage + 1
    when that is at most the number of pages and does nothing otherwise;
    from a page within [1, totalPages] both stay within that range. *)
Theorem C7_pagination (js_lt : Value -> Value -> bool)
  (p : TableProps) (s : State) :
  pagination p = true -> 0 < pageSize p ->
  let rows := sortedData js_lt p s in
  let t := totalPages js_lt p s in
  let prev := currentPage (step js_lt p s PreviousClick).1 in
  let next := currentPage (step js_lt p s NextClick).1 in
  ((t - 1) * pageSize p < Z.of_nat (length rows) <= t * pageSize p) /\
  (rows = [] -> t = 0) /\
  (rows <> [] -> t = Z.max 1 t) /\
  paginatedData js_lt p s =
    slice rows ((currentPage s - 1) * pageSize p) (currentPage s * pageSize p) /\
  (1 <= currentPage s ->
   paginatedData js_lt p s =
     take (Z.to_nat (pageSize p))
          (drop (Z.to_nat ((currentPage s - 1) * pageSize p)) rows)) /\
  prev = Z.max 1 (currentPage s - 1) /\
  next = (if currentPage s <? t then currentPage s + 1 else currentPage s) /\
  (1 <= currentPage s <= t -> 1 <= prev <= t /\ 1 <= next <= t) /\
  (currentPage s = 1 -> prev = 1) /\
  (currentPage s = t -> next = t).
Proof.
  intros Hp Hps rows t prev next.
  pose proof (ceil_div_spec (Z.of_nat (length rows)) (pageSize p) Hps) as B.
  fold t in B.
  assert (Eprev : prev = Z.max 1 (currentPage s - 1)).
  { unfold prev. rewrite step_currentPage, Hp. reflexivity. }
  assert (Enext : next = if currentPage s <? t then currentPage s + 1
                         else currentPage s).
  { unfold next. rewrite step_currentPage, Hp. reflexivity. }
  split; [exact B|].
  split.
  { intros E. unfold t, totalPages. fold rows. rewrite E. apply ceil_div_zero. }
  split.
  { intros Hne.
    assert (Hl : 0 < Z.of_nat (length rows)).
    { apply (Nat2Z.inj_lt 0), Nat.neq_0_lt_0. intros E. apply Hne.
      apply length_zero_iff_nil. exact E. }
    pose proof (ceil_div_pos _ _ Hps Hl) as H1. change (1 <= t) in H1. lia. }
  split.
  { unfold paginatedData. rewrite Hp. simpl. fold rows. f_equal. lia. }
  split.
  { intros Hcp. unfold paginatedData. rewrite Hp. simpl. fold rows.
    apply slice_window; nia. }
  split; [exact Eprev|]. split; [exact Enext|].
  split.
  { intros Hin. rewrite Eprev, Enext.
    destruct (Z.ltb_spec (currentPage s) t); lia. }
  split.
  { intros E1. rewrite Eprev, E1. reflexivity. }
  { intros Et. rewrite Enext, Et, Z.ltb_irrefl. reflexivity. }
Qed.

Lemma C7_pagination_witness :
  let p := tableProps sampleData 2 in
  let s := run prim_lt init [(p, NextClick)] in
  pagination p = true /\ 0 < pageSize p /\
  currentPage s = 2 /\ totalPages prim_lt p s = 3 /\
  paginatedData prim_lt p s = [user 3 "Bob Johnson" 45; user 4 "Alice Brown" 29] /\
  paginatedData prim_lt p s =
    slice (sortedData prim_lt p s) ((2 - 1) * 2) (2 * 2).
Proof.
  pose proof (C7_pagination prim_lt (tableProps sampleData 2)
                (run prim_lt init [(tableProps sampleData 2, NextClick)])
                eq_refl eq_refl) as (_ & _ & _ & Hslice & _).
  split; [reflexivity|]. split; [reflexivity|]. split; [reflexivity|].
  split; [reflexivity|]. split; [reflexivity|]. exact Hslice.
Defined.

(** ** Row keys *)

(** C10. With a field name as [rowKey], a record whose field is falsy
    (absent, undefined, null, 0 or the empty string among them) is keyed
    by the index handed to [getRowKey]; the selection handler resolves the
    selected rows by keying every record with index 0; and the two can
    disagree: on two rows without an [id], ticking the second row reports
    the keys [1] with no resolved row, while the table rendered with the
    keys [1] shows the second row's checkbox checked. *)
Theorem C10_falsy_row_key_falls_back_to_index :
  (forall (p : TableProps) (name : string) (record : gmap string Value) (index : Z),
     rowKey p = KeyField name ->
     truthy (field record name) = false ->
     getRowKey p record index = VNum index) /\
  (forall (record : gmap string Value) (name : string),
     record !! name = None \/ record !! name = Some VUndef \/
     record !! name = Some VNull \/ record !! name = Some (VNum 0) \/
     record !! name = Some (VStr "") ->
     truthy (field record name) = false) /\
  (forall (p : TableProps) (k : Value),
     selectable p = true -> onSelectionChange p = true ->
     let newSelectedKeys :=
       if arr_includes (selectedRowKeys p) k
       then arr_remove (selectedRowKeys p) k else selectedRowKeys p ++ [k] in
     handleRowSelection p k =
       [(newSelectedKeys,
         List.filter (fun item => arr_includes newSelectedKeys (getRowKey p item 0))
                     (data p))]) /\
  (let p := tableProps keylessData 10 in
   step prim_lt p init (RowCheckbox 1) = (init, [([VNum 1], [])]) /\
   checkedRows prim_lt (withSelectedRowKeys [VNum 1] p) init = [anonymous "Ben"]).
Proof.
  split; [|split; [|split]].
  - intros p name record index Hk Hf. unfold getRowKey, or_else.
    rewrite Hk, Hf. reflexivity.
  - intros record name H. unfold field.
    destruct H as [H|[H|[H|[H|H]]]]; rewrite H; reflexivity.
  - intros p k Hs Hc. unfold handleRowSelection. rewrite Hs, Hc. reflexivity.
  - vm_compute. split; reflexivity.
Qed.

Lemma C10_falsy_row_key_falls_back_to_index_witness :
  rowKey (tableProps keylessData 10) = KeyField "id" /\
  truthy (field (anonymous "Ben") "id") = false /\
  getRowKey (tableProps keylessData 10) (anonymous "Ben") 1 = VNum 1 /\
  getRowKey (tableProps keylessData 10) (anonymous "Ben") 0 = VNum 0.
Proof.
  destruct C10_falsy_row_key_falls_back_to_index as [H _].
  split; [reflexivity|]. split; [reflexivity|]. split.
  - apply (H (tableProps keylessData 10) "id" (anonymous "Ben") 1); reflexivity.
  - apply (H (tableProps keylessData 10) "id" (anonymous "Ben") 0); reflexivity.
Defined.

End TableProofs.

(** * Further properties of Select *)

Module SelectExtra.
Import JS Select Fixtures Derived SelectProofs.

(** ** What the value handlers leave alone *)

Lemma handleValueChange_frame p s v :
  isOpen (handleValueChange p s v).1 = isOpen s /\
  searchQuery (handleValueChange p s v).1 = searchQuery s /\
  focusedIndex (handleValueChange p s v).1 = focusedIndex s.
Proof. unfold handleValueChange. destruct (isControlled p); repeat split. Qed.

Lemma handleValueChange_internal p s v :
  controlledValue p = None -> internalValue (handleValueChange p s v).1 = v.
Proof. unfold handleValueChange, isControlled. intros ->. reflexivity. Qed.

Lemma handleValueChange_calls p s v :
  (handleValueChange p s v).2 = if onChange p then [v] else [].
Proof. reflexivity. Qed.

Lemma handleOptionClick_eq p s x :
  handleOptionClick p s x =
  ({| internalValue :=
        if isControlled p then internalValue s else newValueOf p s x;
      isOpen := if multiple p then isOpen s else false;
      searchQuery := searchQuery s; focusedIndex := focusedIndex s |},
   if onChange p then [newValueOf p s x] else []).
Proof.
  unfold handleOptionClick, newValueOf, toggled, handleValueChange.
  destruct (multiple p), (isControlled p), s; reflexivity.
Qed.

Lemma handleClear_eq p s :
  handleClear p s =
  ({| internalValue :=
        if isControlled p then internalValue s else emptyValue p;
      isOpen := isOpen s; searchQuery := ""; focusedIndex := focusedIndex s |},
   if onChange p then [emptyValue p] else []).
Proof.
  unfold handleClear, emptyValue, handleValueChange.
  destruct (isControlled p), s; reflexivity.
Qed.

Lemma step_committed p s e x :
  committed p s e = Some x -> step p s e = handleOptionClick p s x.
Proof.
  destruct e as [|k| |i|i|q|]; simpl; try discriminate.
  - destruct k; try discriminate. unfold handleKeyDown.
    destruct (disabled p); simpl; [discriminate|].
    destruct (isOpen s && (0 <=? focusedIndex s) &&
              (focusedIndex s <? Z.of_nat (length (filteredOptions p s))));
      [|discriminate].
    destruct (filteredOptions p s !! Z.to_nat (focusedIndex s)) as [o|];
      simpl; [|discriminate].
    intros [= <-]. reflexivity.
  - destruct (isOpen s); [|discriminate].
    destruct (filteredOptions p s !! i) as [o|]; [|discriminate].
    destruct (SelectOption.disabled o); [discriminate|].
    intros [= <-]. reflexivity.
Qed.

(** Any other event leaves the value alone and calls nothing, except the
    clear button. *)
Lemma step_not_committed p s e :
  committed p s e = None -> e <> ClearClick ->
  internalValue (step p s e).1 = internalValue s /\ (step p s e).2 = [].
Proof.
  destruct e as [|k| |i|i|q|]; simpl; intros Hc Hne.
  - destruct (disabled p); split; reflexivity.
  - unfold handleKeyDown. destruct (disabled p); simpl in *; [split; reflexivity|].
    destruct k; simpl in *;
      repeat match goal with
             | |- context [if ?b then _ else _] => destruct b; simpl in *
             end; try (split; reflexivity).
    destruct (filteredOptions p s !! Z.to_nat (focusedIndex s));
      [discriminate | split; reflexivity].
  - split; reflexivity.
  - destruct (isOpen s); [|split; reflexivity].
    destruct (filteredOptions p s !! i) as [o|]; [|split; reflexivity].
    destruct (SelectOption.disabled o); [split; reflexivity | discriminate].
  - destruct (isOpen s); [|split; reflexivity].
    destruct (filteredOptions p s !! i); split; reflexivity.
  - destruct (isOpen s && searchable p); split; reflexivity.
  - congruence.
Qed.

(** ** Lists of values *)

Lemma arr_includes_In l x : arr_includes l x = true <-> In x l.
Proof.
  unfold arr_includes. rewrite existsb_exists. split.
  - intros [v [Hin Hv]]. apply bool_decide_eq_true in Hv. congruence.
  - intros Hin. exists x. split; [exact Hin | apply bool_decide_eq_true; reflexivity].
Qed.

Lemma arr_includes_false l x : arr_includes l x = false <-> ~ In x l.
Proof.
  rewrite <- arr_includes_In. destruct (arr_includes l x); split; congruence.
Qed.

Lemma arr_remove_In l x y : In y (arr_remove l x) <-> In y l /\ y <> x.
Proof.
  unfold arr_remove. rewrite filter_In, negb_true_iff, bool_decide_eq_false.
  reflexivity.
Qed.

Lemma arr_remove_absent l x : ~ In x l -> arr_remove l x = l.
Proof.
  intros H. unfold arr_remove. induction l as [|y l IH]; simpl; [reflexivity|].
  rewrite bool_decide_eq_false_2 by (intros ->; apply H; left; reflexivity).
  simpl. rewrite IH; [reflexivity|]. intros Hin. apply H. right. exact Hin.
Qed.

Lemma arr_remove_app l1 l2 x :
  arr_remove (l1 ++ l2) x = arr_remove l1 x ++ arr_remove l2 x.
Proof. unfold arr_remove. apply List.filter_app. Qed.

Lemma arr_remove_self x : arr_remove [x] x = [].
Proof.
  unfold arr_remove. simpl. rewrite bool_decide_eq_true_2 by reflexivity.
  reflexivity.
Qed.

Lemma arr_remove_NoDup l x : NoDup l -> NoDup (arr_remove l x).
Proof.
  intros H. unfold arr_remove. induction H as [|y l Hy Hl IH]; simpl.
  - constructor.
  - destruct (negb (bool_decide (y = x))); [|exact IH].
    constructor; [|exact IH].
    rewrite list_elem_of_In. intros Hin. apply filter_In in Hin.
    apply Hy. rewrite list_elem_of_In. tauto.
Qed.

(** ** Toggling an option twice *)

(** In multiple mode, uncontrolled, two clicks on one enabled option row
    give back the state before the clicks when its value was not
    selected; when it was selected, the two clicks move it to the end of
    the selection (all its occurrences merged into one). The list stays
    open throughout. *)
Theorem multi_toggle_twice_restores (p : SelectProps) (s : State) (i : nat)
  (o : SelectOption.t) (l : list Value) :
  multiple p = true -> controlledValue p = None ->
  isOpen s = true -> internalValue s = Many l ->
  filteredOptions p s !! i = Some o -> SelectOption.disabled o = false ->
  let x := SelectOption.value o in
  let s2 := (run_fixed p s [OptionClick i; OptionClick i]).1 in
  (~ In x l -> s2 = s) /\
  (In x l -> internalValue s2 = Many (arr_remove l x ++ [x])) /\
  isOpen s2 = true.
Proof.
  intros Hm Hc Ho Hl Hi Hd x s2.
  assert (Hstep : forall st, isOpen st = true -> searchQuery st = searchQuery s ->
            step p st (OptionClick i) = handleOptionClick p st x).
  { intros st Hst Hq. apply step_committed. simpl. rewrite Hst.
    assert (E : filteredOptions p st = filteredOptions p s)
      by (unfold filteredOptions; rewrite Hq; reflexivity).
    rewrite E, Hi, Hd. reflexivity. }
  assert (Hcv : forall st, currentValue p st = internalValue st)
    by (intros st; unfold currentValue; rewrite Hc; reflexivity).
  assert (Hic : isControlled p = false) by (unfold isControlled; rewrite Hc; reflexivity).
  unfold s2. rewrite run_fixed_cons, (Hstep s Ho eq_refl), handleOptionClick_eq.
  rewrite run_fixed_cons, Hstep by (simpl; rewrite ?Hm; auto).
  rewrite handleOptionClick_eq. simpl.
  rewrite !Hic, !Hm. unfold newValueOf. rewrite !Hm, !Hcv. simpl.
  rewrite Hl, Ho. unfold toggled.
  destruct (arr_includes l x) eqn:Hin; simpl.
  - split; [|split; [|reflexivity]].
    + intros Hn. apply arr_includes_In in Hin. contradiction.
    + intros _.
      assert (Hout : arr_includes (arr_remove l x) x = false).
      { apply arr_includes_false. rewrite arr_remove_In. tauto. }
      rewrite Hout. reflexivity.
  - split; [|split; [|reflexivity]].
    + intros Hn.
      assert (Hnow : arr_includes (l ++ [x]) x = true).
      { apply arr_includes_In, in_or_app. right. left. reflexivity. }
      rewrite Hnow, arr_remove_app, arr_remove_self, app_nil_r.
      rewrite (arr_remove_absent l x Hn).
      destruct s; simpl in *. congruence.
    + intros Hyes. apply arr_includes_false in Hin. contradiction.
Qed.

Lemma multi_toggle_twice_restores_witness :
  let s := {| internalValue := Many [VStr "cherry"]; isOpen := true;
              searchQuery := ""; focusedIndex := -1 |} in
  multiple multiProps = true /\ controlledValue multiProps = None /\
  filteredOptions multiProps s !! 0%nat = Some (fruit "apple" "Apple" false) /\
  (run_fixed multiProps s [OptionClick 0; OptionClick 0]).1 = s /\
  internalValue (run_fixed multiProps s [OptionClick 2; OptionClick 2]).1 =
    Many [VStr "cherry"].
Proof.
  split; [reflexivity|]. split; [reflexivity|]. split; [reflexivity|]. split.
  - apply (multi_toggle_twice_restores multiProps
             {| internalValue := Many [VStr "cherry"]; isOpen := true;
                searchQuery := ""; focusedIndex := -1 |}
             0 (fruit "apple" "Apple" false) [VStr "cherry"]
             eq_refl eq_refl eq_refl eq_refl eq_refl eq_refl).
    simpl. intros [H|[]]. discriminate.
  - reflexivity.
Defined.

(** ** What one event does to the value and to the callback *)

Lemma step_effect p s e :
  internalValue (step p s e).1 =
    (if isControlled p then internalValue s
     else default (internalValue s) (requested p s e)) /\
  (step p s e).2 = (if onChange p then option_list (requested p s e) else []).
Proof.
  unfold requested. destruct (committed p s e) as [x|] eqn:Hc.
  - rewrite (step_committed _ _ _ _ Hc), handleOptionClick_eq. simpl.
    split; reflexivity.
  - assert (Hother : e <> ClearClick ->
              internalValue (step p s e).1 = internalValue s /\
              (step p s e).2 = []) by (apply step_not_committed; exact Hc).
    destruct e as [|k| |i|i|q|];
      try (destruct Hother as [-> ->]; [discriminate|];
           destruct (isControlled p), (onChange p); split; reflexivity).
    simpl. destruct (showClearButton p s).
    + rewrite handleClear_eq. simpl. split; reflexivity.
    + simpl. destruct (isControlled p), (onChange p); split; reflexivity.
Qed.

Lemma requested_committing p s e :
  committing e = false -> requested p s e = None.
Proof.
  unfold requested.
  destruct e as [|k| |i|i|q|]; simpl; try discriminate; try reflexivity.
  destruct k; simpl; try discriminate; reflexivity.
Qed.

Lemma run_cons s p e tr :
  run s ((p, e) :: tr) =
  ((run (step p s e).1 tr).1, (step p s e).2 ++ (run (step p s e).1 tr).2).
Proof.
  simpl. destruct (step p s e) as [s1 c1]. simpl.
  destruct (run s1 tr) as [s2 c2]. reflexivity.
Qed.

(** ** Calls to the change callback *)

(** One event calls the change callback at most once, and only a click
    on an option row, Enter or the clear button can call it: over any
    lifetime the number of calls is at most the number of such events.
    Opening, closing, moving the focus and typing in the search box never
    call it, and a Select rendered without a callback calls nothing. *)
Theorem onChange_calls_bounded (s : State) (tr : list (SelectProps * Event)) :
  (length (run s tr).2 <=
     length (List.filter (fun pe => committing pe.2) tr))%nat /\
  (Forall (fun pe => onChange pe.1 = false) tr -> (run s tr).2 = []) /\
  (Forall (fun pe => committing pe.2 = false) tr ->
     (run s tr).2 = [] /\ internalValue (run s tr).1 = internalValue s).
Proof.
  revert s. induction tr as [|[p e] tr IH]; intros s.
  - simpl. repeat split; lia.
  - rewrite run_cons. simpl snd. simpl fst.
    destruct (step_effect p s e) as [Hv Hcalls].
    destruct (IH (step p s e).1) as (IH1 & IH2 & IH3).
    split; [|split].
    + rewrite length_app, Hcalls. simpl.
      destruct (committing e) eqn:Hce; simpl.
      * destruct (onChange p), (requested p s e); simpl; lia.
      * rewrite (requested_committing _ _ _ Hce).
        destruct (onChange p); simpl; lia.
    + intros HF. inversion HF as [|? ? Hp HF']; subst. simpl in Hp.
      rewrite Hcalls, Hp, (IH2 HF'). reflexivity.
    + intros HF. inversion HF as [|? ? Hp HF']; subst. simpl in Hp.
      destruct (IH3 HF') as [E1 E2].
      rewrite Hcalls, E1, E2, Hv, (requested_committing _ _ _ Hp).
      destruct (isControlled p), (onChange p); split; reflexivity.
Qed.

(** ** The uncontrolled value follows the callback *)

(** Uncontrolled, with a change callback, and props that stay the same:
    after any events the stored (and rendered) selection is the argument
    of the last call of the callback, or the starting selection when there
    was no call. *)
Theorem uncontrolled_value_is_last_call (p : SelectProps) (s : State)
  (es : list Event) :
  controlledValue p = None -> onChange p = true ->
  currentValue p (run_fixed p s es).1 =
    default (internalValue s) (last (run_fixed p s es).2).
Proof.
  intros Hc Hon.
  assert (Hcur : forall st, currentValue p st = internalValue st)
    by (intros st; unfold currentValue; rewrite Hc; reflexivity).
  rewrite Hcur. revert s. induction es as [|e es IH]; intros s; [reflexivity|].
  unfold run_fixed in *. simpl List.map. rewrite run_cons. simpl fst. simpl snd.
  rewrite IH, last_app. destruct (step_effect p s e) as [Hv Hcalls].
  destruct (last (run (step p s e).1 (List.map (fun e0 => (p, e0)) es)).2);
    [reflexivity|].
  simpl. rewrite Hv, Hcalls, Hon. unfold isControlled. rewrite Hc.
  destruct (requested p s e); reflexivity.
Qed.

Lemma uncontrolled_value_is_last_call_witness :
  let es := [TriggerClick; OptionClick 0; TriggerClick; OptionClick 3;
             OptionClick 2] in
  controlledValue plainProps = None /\ onChange plainProps = true /\
  (run_fixed plainProps (init plainProps) es).2 =
    [One (VStr "apple"); One (VStr "cherry")] /\
  currentValue plainProps (run_fixed plainProps (init plainProps) es).1 =
    One (VStr "cherry").
Proof.
  split; [reflexivity|]. split; [reflexivity|]. split; [reflexivity|].
  rewrite (uncontrolled_value_is_last_call plainProps (init plainProps)
             [TriggerClick; OptionClick 0; TriggerClick; OptionClick 3;
              OptionClick 2] eq_refl eq_refl).
  reflexivity.
Defined.

Lemma onChange_calls_bounded_witness :
  let tr := [(plainProps, TriggerClick); (plainProps, KeyDown ArrowDown);
             (plainProps, OptionMouseEnter 2); (plainProps, KeyDown Escape)] in
  Forall (fun pe => committing pe.2 = false) tr /\
  (run (init plainProps) tr).2 = [] /\
  internalValue (run (init plainProps) tr).1 = One (VStr "").
Proof.
  assert (HF : Forall (fun pe : SelectProps * Event => committing pe.2 = false)
                 [(plainProps, TriggerClick); (plainProps, KeyDown ArrowDown);
                  (plainProps, OptionMouseEnter 2); (plainProps, KeyDown Escape)])
    by (repeat constructor).
  split; [exact HF|].
  destruct (onChange_calls_bounded (init plainProps)
              [(plainProps, TriggerClick); (plainProps, KeyDown ArrowDown);
               (plainProps, OptionMouseEnter 2); (plainProps, KeyDown Escape)])
    as (_ & _ & H).
  apply (H HF).
Defined.

(** ** Invariants of the stored selection *)

Lemma toggled_distinct cur x : distinct cur -> distinct (toggled cur x).
Proof.
  unfold toggled, distinct. destruct cur as [v|l]; simpl.
  - intros _. apply NoDup_singleton.
  - intros Hl. destruct (arr_includes l x) eqn:Hin.
    + apply arr_remove_NoDup, Hl.
    + apply NoDup_app. split; [exact Hl|]. split; [|apply NoDup_singleton].
      intros y Hy Hx. apply list_elem_of_In in Hx. destruct Hx as [->|[]].
      apply arr_includes_false in Hin. apply Hin, list_elem_of_In, Hy.
Qed.

(** A stored multiple selection never lists a value twice: whatever the
    props of each render, every event keeps a repetition-free internal
    value repetition-free (a toggle appends a value only when it is
    absent and removes every occurrence otherwise). *)
Theorem selection_stays_distinct (s : State) (tr : list (SelectProps * Event)) :
  distinct (internalValue s) -> distinct (internalValue (run s tr).1).
Proof.
  revert s. induction tr as [|[p e] tr IH]; intros s Hs; [exact Hs|].
  rewrite run_cons. simpl fst. apply IH.
  destruct (step_effect p s e) as [Hv _]. rewrite Hv.
  destruct (isControlled p) eqn:Hic; [exact Hs|].
  assert (Hcur : currentValue p s = internalValue s).
  { unfold currentValue. unfold isControlled in Hic.
    destruct (controlledValue p); [discriminate | reflexivity]. }
  unfold requested.
  destruct (committed p s e) as [x|]; simpl.
  - unfold newValueOf. destruct (multiple p); [|exact I].
    rewrite Hcur. apply toggled_distinct, Hs.
  - destruct e; try exact Hs.
    destruct (showClearButton p s); [|exact Hs].
    simpl. unfold emptyValue. destruct (multiple p); simpl; [constructor | exact I].
Qed.

Lemma selection_stays_distinct_witness :
  let tr := [(multiProps, TriggerClick); (multiProps, OptionClick 0);
             (multiProps, OptionClick 1); (multiProps, OptionClick 0);
             (multiProps, OptionClick 0)] in
  distinct (internalValue (init multiProps)) /\
  internalValue (run (init multiProps) tr).1 = Many [VStr "banana"; VStr "apple"] /\
  distinct (internalValue (run (init multiProps) tr).1).
Proof.
  split; [constructor|]. split; [reflexivity|].
  apply (selection_stays_distinct (init multiProps)
           [(multiProps, TriggerClick); (multiProps, OptionClick 0);
            (multiProps, OptionClick 1); (multiProps, OptionClick 0);
            (multiProps, OptionClick 0)]).
  constructor.
Defined.

Lemma filteredOptions_In p s o : In o (filteredOptions p s) -> In o (options p).
Proof.
  unfold filteredOptions.
  destruct (searchable p && negb (bool_decide (searchQuery s = EmptyString)));
    [|auto].
  intros H. apply filter_In in H. tauto.
Qed.

Lemma click_commits_enabled p s i x :
  committed p s (OptionClick i) = Some x -> enabledValue p x.
Proof.
  simpl. destruct (isOpen s); [|discriminate].
  destruct (filteredOptions p s !! i) as [o|] eqn:Hi; [|discriminate].
  destruct (SelectOption.disabled o) eqn:Hd; [discriminate|].
  intros [= <-]. exists o. split; [|split; [exact Hd | reflexivity]].
  eapply filteredOptions_In, list_elem_of_In, list_elem_of_lookup_2, Hi.
Qed.

Lemma toggled_onlyEnabled p cur x :
  enabledValue p x -> onlyEnabled p cur -> onlyEnabled p (toggled cur x).
Proof.
  intros Hx Hcur. unfold toggled. destruct cur as [v|l]; simpl.
  - repeat constructor. exact Hx.
  - simpl in Hcur. destruct (arr_includes l x).
    + rewrite Forall_forall in *. intros y Hy.
      apply Hcur. apply list_elem_of_In in Hy. apply arr_remove_In in Hy.
      apply list_elem_of_In. tauto.
    + apply Forall_app. split; [exact Hcur | repeat constructor; exact Hx].
Qed.

(** Through clicks alone a disabled option is never selected: with props
    that stay the same and no Enter key among the events, a stored
    selection that holds only the cleared value or values of enabled
    options keeps holding only such values. *)
Theorem clicks_select_enabled_only (p : SelectProps) (s : State) (es : list Event) :
  Forall (fun e => e <> KeyDown Enter) es ->
  onlyEnabled p (internalValue s) ->
  onlyEnabled p (internalValue (run_fixed p s es).1).
Proof.
  intros HF. revert s. induction HF as [|e es He HF IH]; intros s Hs; [exact Hs|].
  unfold run_fixed in *. simpl List.map. rewrite run_cons. simpl fst. apply IH.
  destruct (step_effect p s e) as [Hv _]. rewrite Hv.
  destruct (isControlled p) eqn:Hic; [exact Hs|].
  assert (Hcur : currentValue p s = internalValue s).
  { unfold currentValue. unfold isControlled in Hic.
    destruct (controlledValue p); [discriminate | reflexivity]. }
  unfold requested.
  destruct (committed p s e) as [x|] eqn:Hc; simpl.
  - assert (Hx : enabledValue p x).
    { destruct e as [|k| |i|i|q|]; try discriminate.
      - destruct k; try discriminate. congruence.
      - eapply click_commits_enabled, Hc. }
    unfold newValueOf. destruct (multiple p).
    + rewrite Hcur. apply toggled_onlyEnabled; assumption.
    + right. exact Hx.
  - destruct e; try exact Hs.
    destruct (showClearButton p s); [|exact Hs].
    simpl. unfold emptyValue. destruct (multiple p); simpl;
      [constructor | left; reflexivity].
Qed.

Lemma clicks_select_enabled_only_witness :
  let es := [TriggerClick; OptionClick 3; OptionClick 1; KeyDown ArrowDown;
             OptionClick 3; OptionClick 4] in
  Forall (fun e => e <> KeyDown Enter) es /\
  onlyEnabled multiProps (internalValue (init multiProps)) /\
  internalValue (run_fixed multiProps (init multiProps) es).1 =
    Many [VStr "banana"; VStr "elderberry"] /\
  onlyEnabled multiProps (internalValue (run_fixed multiProps (init multiProps) es).1).
Proof.
  assert (HF : Forall (fun e => e <> KeyDown Enter)
                 [TriggerClick; OptionClick 3; OptionClick 1; KeyDown ArrowDown;
                  OptionClick 3; OptionClick 4])
    by (repeat constructor; discriminate).
  split; [exact HF|]. split; [constructor|]. split; [reflexivity|].
  apply (clicks_select_enabled_only multiProps (init multiProps) _ HF).
  constructor.
Defined.

(** ** A disabled Select *)

Lemma disabled_closed_step p s e :
  disabled p = true -> isOpen s = false ->
  isOpen (step p s e).1 = false /\
  (requested p s e = None \/ requested p s e = Some (emptyValue p)).
Proof.
  intros Hd Ho. unfold requested.
  destruct e as [|k| |i|i|q|]; simpl; unfold handleKeyDown;
    rewrite ?Hd, ?Ho; simpl; try (split; [assumption || reflexivity | left; reflexivity]).
  - destruct k; simpl; rewrite ?Hd; simpl; (split; [assumption | left; reflexivity]).
  - destruct (showClearButton p s).
    + rewrite handleClear_eq. simpl. split; [assumption | right; reflexivity].
    + split; [assumption | left; reflexivity].
Qed.

(** A Select that is rendered disabled from its creation never opens:
    after any events its list is closed, so no option can be committed;
    the only calls of the change callback come from the clear button
    (which stays active) and carry the cleared value, and the stored
    selection is the initial or the cleared one. *)
Theorem disabled_never_opens (p : SelectProps) (es : list Event) :
  disabled p = true ->
  isOpen (run_fixed p (init p) es).1 = false /\
  Forall (fun c => c = emptyValue p) (run_fixed p (init p) es).2 /\
  (internalValue (run_fixed p (init p) es).1 = internalValue (init p) \/
   internalValue (run_fixed p (init p) es).1 = emptyValue p).
Proof.
  intros Hd.
  assert (H : forall s, isOpen s = false ->
            isOpen (run_fixed p s es).1 = false /\
            Forall (fun c => c = emptyValue p) (run_fixed p s es).2 /\
            (internalValue (run_fixed p s es).1 = internalValue s \/
             internalValue (run_fixed p s es).1 = emptyValue p)).
  { induction es as [|e es IH]; intros s Ho.
    - simpl. repeat split; [exact Ho | constructor | left; reflexivity].
    - unfold run_fixed in *. simpl List.map. rewrite run_cons. simpl fst. simpl snd.
      destruct (disabled_closed_step p s e Hd Ho) as [Ho' Hreq].
      destruct (step_effect p s e) as [Hv Hcalls].
      destruct (IH _ Ho') as (I1 & I2 & I3).
      split; [exact I1|]. split.
      + apply Forall_app. split; [|exact I2].
        rewrite Hcalls. destruct (onChange p); [|constructor].
        destruct Hreq as [-> | ->]; repeat constructor.
      + destruct I3 as [I3|I3]; [|right; exact I3].
        rewrite I3, Hv. destruct (isControlled p); [left; reflexivity|].
        destruct Hreq as [-> | ->]; [left | right]; reflexivity. }
  apply H. reflexivity.
Qed.

Lemma disabled_never_opens_witness :
  let es := [TriggerClick; KeyDown Enter; KeyDown ArrowDown; OptionClick 0;
             ClearClick; KeyDown Space] in
  disabled disabledProps = true /\
  (run_fixed disabledProps (init disabledProps) es).2 = [One (VStr "")] /\
  isOpen (run_fixed disabledProps (init disabledProps) es).1 = false.
Proof.
  split; [reflexivity|]. split; [reflexivity|].
  apply (disabled_never_opens disabledProps
           [TriggerClick; KeyDown Enter; KeyDown ArrowDown; OptionClick 0;
            ClearClick; KeyDown Space] eq_refl).
Defined.

(** ** The focused index *)

Lemma step_focus_lower p s e :
  -1 <= focusedIndex s -> -1 <= focusedIndex (step p s e).1.
Proof.
  intros H.
  destruct (committed p s e) as [x|] eqn:Hc.
  - rewrite (step_committed _ _ _ _ Hc), handleOptionClick_eq. exact H.
  - destruct e as [|k| |i|i|q|]; simpl in *.
    + destruct (disabled p); exact H.
    + unfold handleKeyDown. destruct (disabled p); simpl in *; [exact H|].
      destruct k; simpl in *;
        repeat match goal with
               | |- context [if ?b then _ else _] => destruct b eqn:?; simpl in *
               | |- context [match ?o with Some _ => _ | None => _ end] =>
                   destruct o; simpl in *
               end; try discriminate; lia.
    + lia.
    + destruct (isOpen s); [|exact H].
      destruct (filteredOptions p s !! i) as [o|]; [|exact H].
      destruct (SelectOption.disabled o); [exact H | discriminate].
    + destruct (isOpen s); [|exact H].
      destruct (filteredOptions p s !! i); simpl; lia.
    + destruct (isOpen s && searchable p); exact H.
    + destruct (showClearButton p s); [|exact H].
      rewrite handleClear_eq. exact H.
Qed.

(** The focused index never falls below its sentinel -1: in every state
    reachable from the initial one, whatever the props of each render and
    however short the filtered list gets, [focusedIndex >= -1]. *)
Theorem focusedIndex_at_least_sentinel (p0 : SelectProps)
  (tr : list (SelectProps * Event)) :
  -1 <= focusedIndex (run (init p0) tr).1.
Proof.
  assert (H : forall s, -1 <= focusedIndex s -> -1 <= focusedIndex (run s tr).1).
  { induction tr as [|[p e] tr IH]; intros s Hs; [exact Hs|].
    rewrite run_cons. simpl fst. apply IH, step_focus_lower, Hs. }
  apply H. simpl. lia.
Qed.

Lemma arrow_down_step p s :
  disabled p = false -> isOpen s = true ->
  step p s (KeyDown ArrowDown) =
  (setFocusedIndex
     (if focusedIndex s <? Z.of_nat (length (filteredOptions p s)) - 1
      then focusedIndex s + 1 else 0) s, []).
Proof. intros Hd Ho. simpl. unfold handleKeyDown. rewrite Hd, Ho. reflexivity. Qed.

Lemma filteredOptions_setFocusedIndex p s i :
  filteredOptions p (setFocusedIndex i s) = filteredOptions p s.
Proof. reflexivity. Qed.

Lemma arrow_down_iter p s k :
  disabled p = false -> isOpen s = true ->
  let n := Z.of_nat (length (filteredOptions p s)) in
  0 <= focusedIndex s < n ->
  let s' := (run_fixed p s (repeat (KeyDown ArrowDown) k)).1 in
  focusedIndex s' = (focusedIndex s + Z.of_nat k) mod n /\
  isOpen s' = true /\ filteredOptions p s' = filteredOptions p s.
Proof.
  intros Hd. revert s. induction k as [|k IH]; intros s Ho n Hi s'.
  - unfold s'. simpl. rewrite Z.add_0_r, Z.mod_small by lia. auto.
  - unfold s'. simpl repeat. rewrite run_fixed_cons.
    rewrite (arrow_down_step p s Hd Ho).
    set (s1 := setFocusedIndex _ s).
    assert (Hf1 : focusedIndex s1 = (focusedIndex s + 1) mod n).
    { unfold s1. simpl. fold n. destruct (Z.ltb_spec (focusedIndex s) (n - 1)).
      - rewrite Z.mod_small by lia. reflexivity.
      - replace (focusedIndex s + 1) with n by lia.
        rewrite Z.mod_same by lia. reflexivity. }
    assert (Hn1 : filteredOptions p s1 = filteredOptions p s) by reflexivity.
    assert (Ho1 : isOpen s1 = true) by exact Ho.
    assert (Hr : 0 <= focusedIndex s1 < Z.of_nat (length (filteredOptions p s1))).
    { rewrite Hn1, Hf1. fold n. apply Z.mod_pos_bound. lia. }
    destruct (IH s1 Ho1 Hr) as (E1 & E2 & E3).
    destruct (run_fixed p s1 (repeat (KeyDown ArrowDown) k)) as [s2 c2].
    simpl in *. rewrite E1, E2, E3, Hn1, Hf1. fold n.
    rewrite Z.add_mod_idemp_l by lia.
    repeat split. f_equal. lia.
Qed.

(** On a freshly opened list of [n > 0] options (nothing focused), [k]
    presses of ArrowDown, [k >= 1], focus option [(k - 1) mod n]: the
    focus walks down the list and wraps from the last option to the
    first, and the list stays open. *)
Theorem arrow_down_walks_the_list (p : SelectProps) (s : State) (k : nat) :
  disabled p = false -> isOpen s = true -> focusedIndex s = -1 ->
  0 < Z.of_nat (length (filteredOptions p s)) -> (1 <= k)%nat ->
  let s' := (run_fixed p s (repeat (KeyDown ArrowDown) k)).1 in
  focusedIndex s' =
    (Z.of_nat k - 1) mod Z.of_nat (length (filteredOptions p s)) /\
  isOpen s' = true.
Proof.
  intros Hd Ho Hf Hn Hk. destruct k as [|k]; [lia|].
  simpl repeat. intros s'. unfold s'. rewrite run_fixed_cons.
  rewrite (arrow_down_step p s Hd Ho).
  set (n := Z.of_nat (length (filteredOptions p s))) in *.
  set (s1 := setFocusedIndex _ s).
  assert (Hf1 : focusedIndex s1 = 0).
  { unfold s1. simpl. fold n. rewrite Hf.
    destruct (Z.ltb_spec (-1) (n - 1)); reflexivity. }
  assert (Hr : 0 <= focusedIndex s1 < Z.of_nat (length (filteredOptions p s1))).
  { rewrite Hf1. change (0 <= 0 < n). lia. }
  destruct (arrow_down_iter p s1 k Hd Ho Hr) as (E1 & E2 & _).
  destruct (run_fixed p s1 (repeat (KeyDown ArrowDown) k)) as [s2 c2].
  simpl in *. rewrite E1, E2, Hf1. change (Z.of_nat (length (filteredOptions p s1))) with n.
  split; [|reflexivity]. f_equal. lia.
Qed.

Lemma arrow_down_walks_the_list_witness :
  let s := (run_fixed plainProps (init plainProps) [TriggerClick]).1 in
  disabled plainProps = false /\ isOpen s = true /\ focusedIndex s = -1 /\
  focusedIndex (run_fixed plainProps s (repeat (KeyDown ArrowDown) 7)).1 =
    (7 - 1) mod 5.
Proof.
  split; [reflexivity|]. split; [reflexivity|]. split; [reflexivity|].
  apply (arrow_down_walks_the_list plainProps
           (run_fixed plainProps (init plainProps) [TriggerClick]).1 7
           eq_refl eq_refl eq_refl eq_refl).
  lia.
Defined.

(** ** Committing an option in single mode *)

Lemma single_click_step (p : SelectProps) (s : State) (i : nat)
  (o : SelectOption.t) :
  multiple p = false -> controlledValue p = None ->
  isOpen s = true ->
  filteredOptions p s !! i = Some o -> SelectOption.disabled o = false ->
  step p s (OptionClick i) =
    ({| internalValue := One (SelectOption.value o); isOpen := false;
        searchQuery := searchQuery s; focusedIndex := focusedIndex s |},
     if onChange p then [One (SelectOption.value o)] else []).
Proof.
  intros Hm Hc Ho Hi Hd.
  assert (E : step p s (OptionClick i) = handleOptionClick p s (SelectOption.value o)).
  { apply step_committed. simpl. rewrite Ho, Hi, Hd. reflexivity. }
  rewrite E, handleOptionClick_eq. unfold newValueOf, isControlled.
  rewrite Hm, Hc. reflexivity.
Qed.

Lemma isSelected_stored (p : SelectProps) (s : State) (o : SelectOption.t) :
  multiple p = false -> controlledValue p = None ->
  internalValue s = One (SelectOption.value o) -> isSelected p s o = true.
Proof.
  intros Hm Hc Hv. unfold isSelected, currentValue. rewrite Hc, Hv, Hm. simpl.
  apply bool_decide_eq_true. reflexivity.
Qed.

(** In single mode, uncontrolled, a click on an enabled row of the open
    list selects that option whatever was selected before (also when it
    is the selected option already: it is not toggled off), calls the
    callback once with its value, and closes the list, keeping the query
    and the focused index. *)
Theorem single_click_selects_and_closes (p : SelectProps) (s : State) (i : nat)
  (o : SelectOption.t) :
  multiple p = false -> controlledValue p = None ->
  isOpen s = true ->
  filteredOptions p s !! i = Some o -> SelectOption.disabled o = false ->
  step p s (OptionClick i) =
    ({| internalValue := One (SelectOption.value o); isOpen := false;
        searchQuery := searchQuery s; focusedIndex := focusedIndex s |},
     if onChange p then [One (SelectOption.value o)] else []) /\
  isSelected p (step p s (OptionClick i)).1 o = true.
Proof.
  intros Hm Hc Ho Hi Hd.
  pose proof (single_click_step p s i o Hm Hc Ho Hi Hd) as E.
  split; [exact E|].
  apply isSelected_stored; [exact Hm | exact Hc | rewrite E; reflexivity].
Qed.

Lemma single_click_selects_and_closes_witness :
  let s := {| internalValue := One (VStr "banana"); isOpen := true;
              searchQuery := ""; focusedIndex := 1 |} in
  multiple plainProps = false /\ controlledValue plainProps = None /\
  filteredOptions plainProps s !! 1%nat = Some (fruit "banana" "Banana" false) /\
  step plainProps s (OptionClick 1) =
    ({| internalValue := One (VStr "banana"); isOpen := false;
        searchQuery := ""; focusedIndex := 1 |}, [One (VStr "banana")]).
Proof.
  split; [reflexivity|]. split; [reflexivity|]. split; [reflexivity|].
  apply (single_click_selects_and_closes plainProps
           {| internalValue := One (VStr "banana"); isOpen := true;
              searchQuery := ""; focusedIndex := 1 |}
           1 (fruit "banana" "Banana" false)
           eq_refl eq_refl eq_refl eq_refl eq_refl).
Defined.

(** ** Falsy values *)

(** In single mode a selected value that is falsy (the number 0 or the
    empty string) is treated as no selection: the trigger shows the
    placeholder and the clear button is hidden, although the option is
    stored as selected and rendered selected in the list. A falsy default
    value is not even stored: the initial value is the empty string. *)
Theorem falsy_value_shows_placeholder (placeholder : string) (p : SelectProps)
  (s : State) (i : nat) (o : SelectOption.t) :
  multiple p = false -> controlledValue p = None ->
  isOpen s = true ->
  filteredOptions p s !! i = Some o -> SelectOption.disabled o = false ->
  truthy (SelectOption.value o) = false ->
  let s' := (step p s (OptionClick i)).1 in
  currentValue p s' = One (SelectOption.value o) /\
  isSelected p s' o = true /\
  getDisplayValue placeholder p s' = ShowText placeholder /\
  showClearButton p s' = false /\
  (defaultValue p = Some (One (SelectOption.value o)) ->
   internalValue (init p) = One (VStr "")).
Proof.
  intros Hm Hc Ho Hi Hd Hf s'.
  pose proof (single_click_step p s i o Hm Hc Ho Hi Hd) as E.
  assert (Hsel : isSelected p (step p s (OptionClick i)).1 o = true)
    by (apply isSelected_stored; [exact Hm | exact Hc | rewrite E; reflexivity]).
  assert (Hcur : currentValue p s' = One (SelectOption.value o)).
  { unfold s'. rewrite E. unfold currentValue. rewrite Hc. reflexivity. }
  split; [exact Hcur|]. split; [exact Hsel|]. split; [|split].
  - unfold getDisplayValue. rewrite Hcur, Hf. reflexivity.
  - unfold showClearButton. rewrite Hcur, Hf, andb_false_r. apply andb_false_r.
  - intros Hdef. unfold init. rewrite Hdef, Hm. simpl. rewrite Hf. reflexivity.
Qed.

Lemma falsy_value_shows_placeholder_witness :
  let s := (run_fixed digitProps (init digitProps) [TriggerClick]).1 in
  let s' := (step digitProps s (OptionClick 0)).1 in
  multiple digitProps = false /\ controlledValue digitProps = None /\
  truthy (VNum 0) = false /\
  internalValue (init digitProps) = One (VStr "") /\
  currentValue digitProps s' = One (VNum 0) /\
  getDisplayValue "Select an option" digitProps s' = ShowText "Select an option" /\
  showClearButton digitProps s' = false.
Proof.
  destruct (falsy_value_shows_placeholder "Select an option" digitProps
              (run_fixed digitProps (init digitProps) [TriggerClick]).1 0
              (SelectOption.mk (VNum 0) "Zero" false)
              eq_refl eq_refl eq_refl eq_refl eq_refl eq_refl)
    as (H1 & _ & H3 & H4 & H5).
  split; [reflexivity|]. split; [reflexivity|]. split; [reflexivity|].
  split; [apply H5; reflexivity|]. split; [exact H1|]. split; [exact H3 | exact H4].
Defined.

(** ** The clear button *)




(** ** The label shown for a selected value *)

Lemma find_first {A} (f : A -> bool) (pre post : list A) (x : A) :
  Forall (fun y => f y = false) pre -> f x = true ->
  List.find f (pre ++ x :: post) = Some x.
Proof.
  intros Hpre Hx. induction Hpre as [|y pre Hy _ IH]; simpl.
  - rewrite Hx. reflexivity.
  - rewrite Hy. exact IH.
Qed.

Lemma find_none {A} (f : A -> bool) (l : list A) :
  Forall (fun y => f y = false) l -> List.find f l = None.
Proof.
  intros H. induction H as [|y l Hy _ IH]; simpl; [reflexivity|].
  rewrite Hy. exact IH.
Qed.

(** For a truthy single value the trigger shows the label of the first
    option that carries this value (so with a value used twice the first
    option wins), and the raw value when that label is empty or when no
    option carries the value. *)
Theorem display_uses_first_matching_option (placeholder : string)
  (p : SelectProps) (s : State) (v : Value) :
  currentValue p s = One v -> truthy v = true ->
  (forall pre o post,
     options p = pre ++ o :: post ->
     Forall (fun o' => SelectOption.value o' <> v) pre ->
     SelectOption.value o = v ->
     getDisplayValue placeholder p s =
       if bool_decide (SelectOption.label o = EmptyString) then ShowRaw (One v)
       else ShowText (SelectOption.label o)) /\
  (Forall (fun o' => SelectOption.value o' <> v) (options p) ->
   getDisplayValue placeholder p s = ShowRaw (One v)).
Proof.
  intros Hcur Ht. unfold getDisplayValue. rewrite Hcur, Ht. unfold findOption.
  split.
  - intros pre o post Hopts Hpre Ho. rewrite Hopts.
    rewrite (find_first _ pre post o).
    + reflexivity.
    + eapply Forall_impl; [exact Hpre|]. intros o' Hne. simpl in Hne.
      apply bool_decide_eq_false. exact Hne.
    + apply bool_decide_eq_true. exact Ho.
  - intros Hnone. rewrite find_none; [reflexivity|].
    eapply Forall_impl; [exact Hnone|]. intros o' Hne. simpl in Hne.
    apply bool_decide_eq_false. exact Hne.
Qed.

Lemma display_uses_first_matching_option_witness :
  let p := {| options := [fruit "a" "First" false; fruit "b" "Other" false;
                          fruit "a" "Second" false];
              controlledValue := Some (One (VStr "a")); defaultValue := None;
              onChange := false; multiple := false; disabled := false;
              searchable := false; clearable := false |} in
  currentValue p (init p) = One (VStr "a") /\ truthy (VStr "a") = true /\
  getDisplayValue "Select" p (init p) = ShowText "First".
Proof.
  split; [reflexivity|]. split; [reflexivity|].
  destruct (display_uses_first_matching_option "Select"
              {| options := [fruit "a" "First" false; fruit "b" "Other" false;
                             fruit "a" "Second" false];
                 controlledValue := Some (One (VStr "a")); defaultValue := None;
                 onChange := false; multiple := false; disabled := false;
                 searchable := false; clearable := false |}
              (init plainProps) (VStr "a") eq_refl eq_refl) as [H _].
  apply (H [] (fruit "a" "First" false)
           [fruit "b" "Other" false; fruit "a" "Second" false] eq_refl);
    [constructor | reflexivity].
Defined.

End SelectExtra.

(** * Further properties of Table *)

Module TableExtra.
Import JS Table Fixtures TableDerived TableProofs.

(** ** The sort state *)

Lemma nextSort_wellFormed prev k : wellFormed (nextSort prev k).
Proof.
  unfold nextSort, wellFormed.
  destruct (bool_decide (key prev = Some k)); [|simpl; split; discriminate].
  destruct (direction prev) as [[|]|]; simpl; split; congruence.
Qed.

Lemma step_sortState js_lt p s e :
  sortState (step js_lt p s e).1 = sortState s \/
  exists k, sortable p = true /\
            sortState (step js_lt p s e).1 = nextSort (sortState s) k.
Proof.
  destruct e as [i|i| | |]; simpl.
  - destruct (columns p !! i) as [c|]; [|left; reflexivity].
    destruct (bool_decide (TableColumn.sortable c = Some false)); [left; reflexivity|].
    unfold handleSort. destruct (sortable p) eqn:Hs; [|left; reflexivity].
    right. exists (TableColumn.key c). split; reflexivity.
  - destruct (selectable p); [|left; reflexivity].
    destruct (paginatedData js_lt p s !! i); left; reflexivity.
  - destruct (selectable p); left; reflexivity.
  - destruct (pagination p && negb (previousDisabled s)); left; reflexivity.
  - destruct (pagination p && negb (nextDisabled js_lt p s)); left; reflexivity.
Qed.

(** In every reachable state the sort state is well formed: it has an
    active column exactly when it has a direction, so at most one column
    is sorted at a time. *)
Theorem sortState_wellFormed (js_lt : Value -> Value -> bool)
  (tr : list (TableProps * Event)) :
  wellFormed (sortState (run js_lt init tr)).
Proof.
  assert (H : forall s, wellFormed (sortState s) ->
                        wellFormed (sortState (run js_lt s tr))).
  { induction tr as [|[p e] tr IH]; intros s Hs; [exact Hs|].
    simpl. apply IH.
    destruct (step_sortState js_lt p s e) as [-> | [k [_ ->]]];
      [exact Hs | apply nextSort_wellFormed]. }
  apply H. unfold wellFormed. simpl. tauto.
Qed.

(** A table that is never rendered with [sortable] keeps its rows in the
    order of the input: header clicks do not reach the sort state. *)
Theorem unsortable_table_keeps_order (js_lt : Value -> Value -> bool)
  (tr : list (TableProps * Event)) (p : TableProps) :
  Forall (fun pe => sortable pe.1 = false) tr ->
  sortState (run js_lt init tr) = {| key := None; direction := None |} /\
  sortedData js_lt p (run js_lt init tr) = data p.
Proof.
  intros HF.
  assert (H : forall s, sortState s = {| key := None; direction := None |} ->
            sortState (run js_lt s tr) = {| key := None; direction := None |}).
  { induction HF as [|[q e] tr Hq HF IH]; intros s Hs; [exact Hs|].
    simpl. apply IH. simpl in Hq.
    destruct (step_sortState js_lt q s e) as [-> | [k [Hk _]]];
      [exact Hs | congruence]. }
  specialize (H init eq_refl). split; [exact H|].
  unfold sortedData. rewrite H. reflexivity.
Qed.

Lemma unsortable_table_keeps_order_witness :
  Forall (fun pe => sortable pe.1 = false)
    [(plainTable, HeaderClick 0); (plainTable, HeaderClick 1)] /\
  sortedData prim_lt plainTable
    (run prim_lt init [(plainTable, HeaderClick 0); (plainTable, HeaderClick 1)]) =
    sampleData.
Proof.
  assert (HF : Forall (fun pe : TableProps * Event => sortable pe.1 = false)
                 [(plainTable, HeaderClick 0); (plainTable, HeaderClick 1)])
    by (repeat constructor).
  split; [exact HF|].
  destruct (unsortable_table_keeps_order prim_lt
              [(plainTable, HeaderClick 0); (plainTable, HeaderClick 1)]
              plainTable HF) as [_ H].
  exact H.
Defined.

(** ** Rows are kept *)

Lemma slice_sublist {A} (l : list A) (start stop : Z) : sublist (slice l start stop) l.
Proof.
  unfold slice. etransitivity; [apply sublist_take | apply sublist_drop].
Qed.

Lemma paginatedData_sublist js_lt p s :
  sublist (paginatedData js_lt p s) (sortedData js_lt p s).
Proof.
  unfold paginatedData. destruct (pagination p); simpl;
    [apply slice_sublist | reflexivity].
Qed.

Lemma visible_row_in_data js_lt p s r :
  In r (paginatedData js_lt p s) -> In r (data p).
Proof.
  intros Hr. apply list_elem_of_In. rewrite <- (sortedData_perm js_lt p s).
  eapply elem_of_sublist; [|apply paginatedData_sublist].
  apply list_elem_of_In, Hr.
Qed.

(** Sorting and paging never invent, lose or repeat rows: the sorted rows
    are a rearrangement of the input rows, and every row on the visible
    page is an input row. *)
Theorem view_keeps_rows (js_lt : Value -> Value -> bool)
  (p : TableProps) (s : State) :
  sortedData js_lt p s ≡ₚ data p /\
  length (sortedData js_lt p s) = length (data p) /\
  sublist (paginatedData js_lt p s) (sortedData js_lt p s) /\
  (forall r, In r (paginatedData js_lt p s) -> In r (data p)).
Proof.
  split; [apply sortedData_perm|]. split; [apply sortedData_length|].
  split; [apply paginatedData_sublist|].
  intros r. apply visible_row_in_data.
Qed.

(** ** Events and the parts of the state *)

Lemma pager_keeps_sort js_lt p s e :
  e = PreviousClick \/ e = NextClick ->
  sortState (step js_lt p s e).1 = sortState s.
Proof.
  intros [-> | ->]; simpl.
  - destruct (pagination p && negb (previousDisabled s)); reflexivity.
  - destruct (pagination p && negb (nextDisabled js_lt p s)); reflexivity.
Qed.

(** Ticking checkboxes never changes the table's own state (sort and
    page stay as they are), a header click never changes the page, and
    the pager never changes the sort state. *)
Theorem events_keep_their_own_state (js_lt : Value -> Value -> bool)
  (p : TableProps) (s : State) (e : Event) :
  (selectionEvent e = true -> (step js_lt p s e).1 = s) /\
  (forall i, e = HeaderClick i -> currentPage (step js_lt p s e).1 = currentPage s) /\
  (e = PreviousClick \/ e = NextClick ->
   sortState (step js_lt p s e).1 = sortState s) /\
  (selectionEvent e = false -> (step js_lt p s e).2 = []).
Proof.
  repeat split.
  - destruct e as [i|i| | |]; simpl; try discriminate; intros _.
    + destruct (selectable p); [|reflexivity].
      destruct (paginatedData js_lt p s !! i); reflexivity.
    + destruct (selectable p); reflexivity.
  - intros i ->. rewrite step_currentPage. reflexivity.
  - apply pager_keeps_sort.
  - destruct e as [i|i| | |]; simpl; try discriminate; intros _.
    + destruct (columns p !! i) as [c|]; [|reflexivity].
      destruct (bool_decide (TableColumn.sortable c = Some false)); reflexivity.
    + destruct (pagination p && negb (previousDisabled s)); reflexivity.
    + destruct (pagination p && negb (nextDisabled js_lt p s)); reflexivity.
Qed.

Lemma events_keep_their_own_state_witness :
  let p := tableProps sampleData 2 in
  let s := run prim_lt init [(p, HeaderClick 0); (p, NextClick)] in
  selectionEvent (RowCheckbox 1) = true /\
  (step prim_lt p s (RowCheckbox 1)).1 = s /\
  (step prim_lt p s (RowCheckbox 1)).2 =
    [([VNum 2], [user 2 "Jane Smith" 32])].
Proof.
  split; [reflexivity|]. split; [|vm_compute; reflexivity].
  apply (events_keep_their_own_state prim_lt (tableProps sampleData 2)
           (run prim_lt init [(tableProps sampleData 2, HeaderClick 0);
                              (tableProps sampleData 2, NextClick)])
           (RowCheckbox 1)).
  reflexivity.
Defined.

(** ** Next and Previous *)

(** With the pager rendered, Next followed by Previous returns to the
    page it started from whenever Next was enabled, and Previous followed
    by Next does whenever the start was a page from 2 to the last. *)
Theorem next_previous_round_trip (js_lt : Value -> Value -> bool)
  (p : TableProps) (s : State) :
  pagination p = true ->
  (1 <= currentPage s < totalPages js_lt p s ->
   run js_lt s [(p, NextClick); (p, PreviousClick)] = s) /\
  (1 < currentPage s <= totalPages js_lt p s ->
   run js_lt s [(p, PreviousClick); (p, NextClick)] = s).
Proof.
  intros Hp.
  assert (Hstate : forall a b : State,
            sortState a = sortState b -> currentPage a = currentPage b -> a = b).
  { intros [sa ca] [sb cb]; simpl; congruence. }
  assert (Hsort : forall st e, e = PreviousClick \/ e = NextClick ->
            sortState (step js_lt p st e).1 = sortState st).
  { intros st e He. apply pager_keeps_sort, He. }
  assert (Htp : forall a b, totalPages js_lt p a = totalPages js_lt p b).
  { intros a b. rewrite !totalPages_data. reflexivity. }
  assert (Hrun : forall e1 e2, run js_lt s [(p, e1); (p, e2)] =
            (step js_lt p (step js_lt p s e1).1 e2).1) by reflexivity.
  split; intros Hr; rewrite Hrun; apply Hstate.
  - rewrite !Hsort by auto. reflexivity.
  - rewrite !step_currentPage, Hp. simpl.
    destruct (Z.ltb_spec (currentPage s) (totalPages js_lt p s)); lia.
  - rewrite !Hsort by auto. reflexivity.
  - rewrite !step_currentPage, Hp. simpl.
    rewrite (Htp _ s).
    destruct (Z.ltb_spec (Z.max 1 (currentPage s - 1)) (totalPages js_lt p s)); lia.
Qed.

Lemma next_previous_round_trip_witness :
  let p := tableProps sampleData 2 in
  let s := run prim_lt init [(p, NextClick)] in
  pagination p = true /\ 1 < currentPage s <= totalPages prim_lt p s /\
  run prim_lt s [(p, PreviousClick); (p, NextClick)] = s.
Proof.
  split; [reflexivity|]. split; [simpl; split; reflexivity || discriminate|].
  apply (next_previous_round_trip prim_lt (tableProps sampleData 2)
           (run prim_lt init [(tableProps sampleData 2, NextClick)]) eq_refl).
  vm_compute. split; [reflexivity | discriminate].
Defined.

(** ** Pages *)

Lemma page_rows js_lt p s (c : nat) :
  pagination p = true -> 0 < pageSize p -> (1 <= c)%nat ->
  paginatedData js_lt p (setCurrentPage (Z.of_nat c) s) =
    take (Z.to_nat (pageSize p))
         (drop ((c - 1) * Z.to_nat (pageSize p)) (sortedData js_lt p s)).
Proof.
  intros Hp Hps Hc. unfold paginatedData. rewrite Hp. simpl.
  change (sortedData js_lt p (setCurrentPage (Z.of_nat c) s))
    with (sortedData js_lt p s).
  rewrite slice_window by nia.
  replace (Z.of_nat c - 1) with (Z.of_nat (c - 1)) by lia.
  rewrite Z2Nat.inj_mul by lia. rewrite Nat2Z.id. reflexivity.
Qed.

Lemma chunks_concat {A} (l : list A) (n k : nat) :
  concat (List.map (fun i => take n (drop (i * n) l)) (seq 0 k)) = take (k * n) l.
Proof.
  induction k as [|k IH].
  - simpl. rewrite take_0. reflexivity.
  - rewrite seq_S, List.map_app, concat_app, IH. simpl.
    rewrite app_nil_r, take_take_drop. f_equal. lia.
Qed.

Lemma totalPages_nonneg js_lt p s : 0 < pageSize p -> 0 <= totalPages js_lt p s.
Proof.
  intros Hps.
  pose proof (ceil_div_spec (Z.of_nat (length (sortedData js_lt p s)))
                (pageSize p) Hps) as B.
  unfold totalPages. nia.
Qed.

(** The pages 1 to [totalPages], one after the other, are exactly the
    sorted rows: every row is on one page, and none is shown twice. *)
Theorem pages_partition_rows (js_lt : Value -> Value -> bool)
  (p : TableProps) (s : State) :
  pagination p = true -> 0 < pageSize p ->
  concat (List.map
            (fun c => paginatedData js_lt p (setCurrentPage (Z.of_nat c) s))
            (seq 1 (Z.to_nat (totalPages js_lt p s)))) =
  sortedData js_lt p s.
Proof.
  intros Hp Hps.
  set (t := Z.to_nat (totalPages js_lt p s)).
  set (n := Z.to_nat (pageSize p)).
  rewrite <- seq_shift, List.map_map.
  rewrite (List.map_ext_in _
             (fun i => take n (drop (i * n) (sortedData js_lt p s)))).
  - rewrite chunks_concat. apply take_ge.
    pose proof (ceil_div_spec (Z.of_nat (length (sortedData js_lt p s)))
                  (pageSize p) Hps) as B.
    pose proof (totalPages_nonneg js_lt p s Hps) as Ht.
    unfold totalPages in *. unfold t, n, totalPages. nia.
  - intros i _. rewrite page_rows by (assumption || lia).
    replace (S i - 1)%nat with i by lia. reflexivity.
Qed.

Lemma pages_partition_rows_witness :
  let p := tableProps sampleData 2 in
  pagination p = true /\ 0 < pageSize p /\
  totalPages prim_lt p init = 3 /\
  paginatedData prim_lt p (setCurrentPage 1 init) ++
  paginatedData prim_lt p (setCurrentPage 2 init) ++
  paginatedData prim_lt p (setCurrentPage 3 init) = sampleData.
Proof.
  split; [reflexivity|]. split; [reflexivity|]. split; [reflexivity|].
  pose proof (pages_partition_rows prim_lt (tableProps sampleData 2) init
                eq_refl eq_refl) as H.
  change (Z.to_nat (totalPages prim_lt (tableProps sampleData 2) init))
    with 3%nat in H.
  cbn [seq List.map concat] in H. rewrite app_nil_r in H. exact H.
Defined.

(** Every page from 1 to [totalPages] shows at least one row and at most
    [pageSize] rows; every page before the last shows exactly [pageSize]
    rows. *)
Theorem page_is_never_empty (js_lt : Value -> Value -> bool)
  (p : TableProps) (s : State) :
  pagination p = true -> 0 < pageSize p ->
  1 <= currentPage s <= totalPages js_lt p s ->
  1 <= Z.of_nat (length (paginatedData js_lt p s)) <= pageSize p /\
  (currentPage s < totalPages js_lt p s ->
   Z.of_nat (length (paginatedData js_lt p s)) = pageSize p).
Proof.
  intros Hp Hps Hc.
  pose proof (ceil_div_spec (Z.of_nat (length (sortedData js_lt p s)))
                (pageSize p) Hps) as B.
  unfold paginatedData. rewrite Hp. simpl.
  rewrite slice_window by nia.
  rewrite length_take, length_drop.
  unfold totalPages in *.
  set (n := length (sortedData js_lt p s)) in *.
  set (t := ceil_div (Z.of_nat n) (pageSize p)) in *.
  assert (Hstart : (currentPage s - 1) * pageSize p <= (t - 1) * pageSize p) by nia.
  assert (Hpos : 0 <= (currentPage s - 1) * pageSize p) by nia.
  split.
  - lia.
  - intros Hlt.
    assert (currentPage s * pageSize p <= (t - 1) * pageSize p) by nia.
    lia.
Qed.

Lemma page_is_never_empty_witness :
  let p := tableProps sampleData 2 in
  let s := setCurrentPage 3 init in
  pagination p = true /\ 0 < pageSize p /\
  1 <= currentPage s <= totalPages prim_lt p s /\
  length (paginatedData prim_lt p s) = 1%nat /\
  1 <= Z.of_nat (length (paginatedData prim_lt p s)) <= pageSize p.
Proof.
  split; [reflexivity|]. split; [reflexivity|].
  split; [vm_compute; split; discriminate|]. split; [reflexivity|].
  apply (page_is_never_empty prim_lt (tableProps sampleData 2)
           (setCurrentPage 3 init) eq_refl eq_refl).
  vm_compute. split; discriminate.
Defined.

(** ** Select all *)

Lemma forallb_includes_self (l : list Value) : forallb (arr_includes l) l = true.
Proof.
  apply forallb_forall. intros x Hx. apply SelectExtra.arr_includes_In, Hx.
Qed.

(** A click on the header checkbox of a selectable table with a callback
    makes one call: with every key and every row of the data when some
    row is not selected yet, and with no key and no row when all are
    (also when there is no row at all). As many keys as rows are
    reported. Once the caller renders the reported keys, the header
    checkbox is checked (if there are rows) and the next click reports
    the empty selection: select-all followed by select-all clears. *)
Theorem select_all_then_clear (p : TableProps) :
  selectable p = true -> onSelectionChange p = true ->
  let allKeys := keysOf p (data p) in
  (handleSelectAll p = [(allKeys, data p)] \/ handleSelectAll p = [([], [])]) /\
  (headerChecked p = true \/ data p = [] -> handleSelectAll p = [([], [])]) /\
  (headerChecked p = false -> data p <> [] ->
   handleSelectAll p = [(allKeys, data p)]) /\
  length allKeys = length (data p) /\
  handleSelectAll (withSelectedRowKeys allKeys p) = [([], [])] /\
  (data p <> [] -> headerChecked (withSelectedRowKeys allKeys p) = true).
Proof.
  intros Hs Hc allKeys.
  assert (E : handleSelectAll p =
              [(if forallb (arr_includes (selectedRowKeys p)) allKeys then []
                else allKeys,
                if forallb (arr_includes (selectedRowKeys p)) allKeys then []
                else data p)]).
  { unfold handleSelectAll. rewrite Hs, Hc. reflexivity. }
  assert (E' : handleSelectAll (withSelectedRowKeys allKeys p) = [([], [])]).
  { unfold handleSelectAll. simpl. rewrite Hs, Hc. simpl.
    change (keysOf (withSelectedRowKeys allKeys p) (data p)) with allKeys.
    rewrite forallb_includes_self. reflexivity. }
  split; [|split; [|split; [|split; [|split]]]].
  - rewrite E. destruct (forallb _ allKeys); [right | left]; reflexivity.
  - intros [Hh | Hd].
    + unfold headerChecked in Hh. apply andb_true_iff in Hh as [_ Hall].
      rewrite E. fold allKeys in Hall. rewrite Hall. reflexivity.
    + rewrite E. unfold allKeys. rewrite Hd. reflexivity.
  - intros Hh Hd. unfold headerChecked in Hh.
    rewrite bool_decide_eq_false_2 in Hh by exact Hd. simpl in Hh.
    rewrite E. fold allKeys in Hh. rewrite Hh. reflexivity.
  - unfold allKeys, keysOf. apply length_imap.
  - exact E'.
  - intros Hd. unfold headerChecked. simpl.
    rewrite bool_decide_eq_false_2 by exact Hd. simpl.
    change (keysOf (withSelectedRowKeys allKeys p) (data p)) with allKeys.
    apply forallb_includes_self.
Qed.

Lemma select_all_then_clear_witness :
  let p := tableProps sampleData 2 in
  selectable p = true /\ onSelectionChange p = true /\
  handleSelectAll p = [([VNum 1; VNum 2; VNum 3; VNum 4; VNum 5], sampleData)] /\
  handleSelectAll (withSelectedRowKeys (keysOf p (data p)) p) = [([], [])].
Proof.
  split; [reflexivity|]. split; [reflexivity|]. split; [vm_compute; reflexivity|].
  apply (select_all_then_clear (tableProps sampleData 2) eq_refl eq_refl).
Defined.

(** ** Toggling a row *)

(** Ticking a row whose key is not selected reports the selected keys
    with the new key appended; once the caller renders these keys,
    ticking the same key again reports the keys it started with. *)
Theorem row_toggle_twice (p : TableProps) (k : Value) :
  selectable p = true -> onSelectionChange p = true ->
  ~ In k (selectedRowKeys p) ->
  exists rows1 rows2,
    handleRowSelection p k = [(selectedRowKeys p ++ [k], rows1)] /\
    handleRowSelection (withSelectedRowKeys (selectedRowKeys p ++ [k]) p) k =
      [(selectedRowKeys p, rows2)] /\
    rows2 = List.filter
              (fun item => arr_includes (selectedRowKeys p) (getRowKey p item 0))
              (data p).
Proof.
  intros Hs Hc Hk. eexists. eexists. split; [|split].
  - unfold handleRowSelection. rewrite Hs, Hc. simpl.
    apply SelectExtra.arr_includes_false in Hk. rewrite Hk. reflexivity.
  - unfold handleRowSelection. simpl. rewrite Hs, Hc. simpl.
    assert (Hin : arr_includes (selectedRowKeys p ++ [k]) k = true).
    { apply SelectExtra.arr_includes_In, in_or_app. right. left. reflexivity. }
    rewrite Hin, SelectExtra.arr_remove_app, SelectExtra.arr_remove_self, app_nil_r.
    rewrite (SelectExtra.arr_remove_absent _ _ Hk). reflexivity.
  - reflexivity.
Qed.

Lemma row_toggle_twice_witness :
  let p := withSelectedRowKeys [VNum 1] (tableProps sampleData 10) in
  selectable p = true /\ onSelectionChange p = true /\
  ~ In (VNum 4) (selectedRowKeys p) /\
  handleRowSelection p (VNum 4) =
    [([VNum 1; VNum 4], [user 1 "John Doe" 28; user 4 "Alice Brown" 29])] /\
  exists rows1 rows2,
    handleRowSelection p (VNum 4) = [(selectedRowKeys p ++ [VNum 4], rows1)] /\
    handleRowSelection (withSelectedRowKeys (selectedRowKeys p ++ [VNum 4]) p)
      (VNum 4) = [(selectedRowKeys p, rows2)] /\
    rows2 = List.filter
              (fun item => arr_includes (selectedRowKeys p) (getRowKey p item 0))
              (data p).
Proof.
  assert (Hk : ~ In (VNum 4)
                 (selectedRowKeys (withSelectedRowKeys [VNum 1]
                                     (tableProps sampleData 10)))).
  { simpl. intros [H|[]]. discriminate. }
  split; [reflexivity|]. split; [reflexivity|]. split; [exact Hk|].
  split; [vm_compute; reflexivity|].
  apply (row_toggle_twice (withSelectedRowKeys [VNum 1] (tableProps sampleData 10))
           (VNum 4) eq_refl eq_refl Hk).
Defined.

(** ** Keys that do not depend on the index *)

Lemma indexFree_key p r i j :
  indexFree p -> In r (data p) -> getRowKey p r i = getRowKey p r j.
Proof.
  unfold indexFree, getRowKey, or_else. destruct (rowKey p) as [name|f].
  - intros HF Hr. rewrite Forall_forall in HF.
    rewrite (HF r) by (apply list_elem_of_In, Hr). reflexivity.
  - reflexivity.
Qed.

Lemma filter_imap_index_free {A} (f : nat -> A -> bool) (g : A -> bool)
  (h : nat -> nat) (l : list A) :
  (forall i x, In x l -> f i x = g x) ->
  List.map snd (List.filter (fun ix => f ix.1 ix.2) (imap (fun i x => (h i, x)) l)) =
  List.filter g l.
Proof.
  revert h. induction l as [|x l IH]; intros h Hfg; [reflexivity|].
  rewrite imap_cons. simpl.
  rewrite (Hfg (h 0%nat) x) by (left; reflexivity).
  specialize (IH (h ∘ S) (fun i y Hy => Hfg i y (or_intror Hy))).
  destruct (g x); simpl; rewrite <- IH; reflexivity.
Qed.

(** When the key of a record does not depend on the index (a key
    function, or a key field that is truthy in every record), the
    checkboxes and the callback agree: a visible row is rendered checked
    exactly when its key is among the selected keys, and after a tick is
    reported and rendered, the checked rows are exactly the visible rows
    among the reported ones. *)
Theorem checked_rows_are_resolved_rows (js_lt : Value -> Value -> bool)
  (p : TableProps) (s : State) (k : Value) :
  indexFree p -> selectable p = true -> onSelectionChange p = true ->
  checkedRows js_lt p s =
    List.filter (fun r => arr_includes (selectedRowKeys p) (getRowKey p r 0))
                (paginatedData js_lt p s) /\
  exists keys rows,
    handleRowSelection p k = [(keys, rows)] /\
    forall r, In r (checkedRows js_lt (withSelectedRowKeys keys p) s) <->
              In r (paginatedData js_lt p s) /\ In r rows.
Proof.
  intros Hfree Hs Hc.
  assert (Hchk : forall q, indexFree q -> data q = data p ->
            paginatedData js_lt q s = paginatedData js_lt p s ->
            checkedRows js_lt q s =
              List.filter
                (fun r => arr_includes (selectedRowKeys q) (getRowKey q r 0))
                (paginatedData js_lt p s)).
  { intros q Hq Hd Hpg. unfold checkedRows. rewrite Hpg.
    apply (filter_imap_index_free
             (fun i r => arr_includes (selectedRowKeys q) (getRowKey q r (Z.of_nat i)))
             (fun r => arr_includes (selectedRowKeys q) (getRowKey q r 0))
             (fun i => i)).
    intros i r Hr. f_equal. apply indexFree_key; [exact Hq|].
    rewrite Hd. apply (visible_row_in_data js_lt p s), Hr. }
  split; [apply Hchk; [exact Hfree | reflexivity | reflexivity]|].
  unfold handleRowSelection. rewrite Hs, Hc. simpl.
  eexists. eexists. split; [reflexivity|].
  intros r. rewrite Hchk; [|exact Hfree|reflexivity|reflexivity].
  rewrite !filter_In. simpl.
  change (getRowKey (withSelectedRowKeys ?ks p) r 0) with (getRowKey p r 0).
  split.
  - intros [Hr Hk]. split; [exact Hr|]. split; [|exact Hk].
    apply (visible_row_in_data js_lt p s), Hr.
  - intros [Hr [_ Hk]]. split; assumption.
Qed.

Lemma checked_rows_are_resolved_rows_witness :
  let p := tableProps sampleData 10 in
  indexFree p /\ selectable p = true /\ onSelectionChange p = true /\
  handleRowSelection p (VNum 2) = [([VNum 2], [user 2 "Jane Smith" 32])] /\
  checkedRows prim_lt (withSelectedRowKeys [VNum 2] p) init =
    [user 2 "Jane Smith" 32] /\
  checkedRows prim_lt p init =
    List.filter (fun r => arr_includes (selectedRowKeys p) (getRowKey p r 0))
                (paginatedData prim_lt p init).
Proof.
  assert (Hfree : indexFree (tableProps sampleData 10)).
  { unfold indexFree. simpl. repeat constructor. }
  split; [exact Hfree|]. split; [reflexivity|]. split; [reflexivity|].
  split; [vm_compute; reflexivity|]. split; [vm_compute; reflexivity|].
  apply (checked_rows_are_resolved_rows prim_lt (tableProps sampleData 10)
           init (VNum 2) Hfree eq_refl eq_refl).
Defined.

(** ** The order of the sorted rows *)







Lemma sort_insert_sorted {A} (cmp : A -> A -> Z) (le : A -> A -> Prop)
  (P : A -> Prop) (x : A) (l : list A) :
  (forall a b c, le a b -> le b c -> le a c) ->
  (forall a b, P a -> P b ->
     (cmp a b <= 0 -> le a b) /\ (0 < cmp a b -> le b a)) ->
  P x -> Forall P l -> StronglySorted le l ->
  StronglySorted le (sort_insert cmp x l).
Proof.
  intros Htr Hcmp Hx HP Hs. induction Hs as [|y ys Hys IH Hy].
  - simpl. constructor; constructor.
  - inversion HP as [|? ? Py Pys]; subst.
    simpl. destruct (Z.leb_spec (cmp x y) 0) as [Hle|Hgt].
    + assert (Hxy : le x y) by (apply (Hcmp x y Hx Py), Hle).
      constructor; [constructor; assumption|].
      constructor; [exact Hxy|].
      eapply Forall_impl; [exact Hy|]. intros z Hz. simpl in Hz.
      eapply Htr; eassumption.
    + constructor; [apply IH, Pys|].
      rewrite (sort_insert_perm cmp x ys).
      constructor; [apply (Hcmp x y Hx Py), Hgt | exact Hy].
Qed.

Lemma sort_sorted {A} (cmp : A -> A -> Z) (le : A -> A -> Prop)
  (P : A -> Prop) (l : list A) :
  (forall a b c, le a b -> le b c -> le a c) ->
  (forall a b, P a -> P b ->
     (cmp a b <= 0 -> le a b) /\ (0 < cmp a b -> le b a)) ->
  Forall P l -> StronglySorted le (sort cmp l).
Proof.
  intros Htr Hcmp HP. induction HP as [|x xs Px Pxs IH]; simpl; [constructor|].
  apply (sort_insert_sorted cmp le P); try assumption.
  rewrite (sort_perm cmp xs). exact Pxs.
Qed.

(** Sorting by a column of numbers orders the rows: when [<] compares
    numbers by value and every row holds a number in the sorted column,
    the ascending rows carry non-decreasing numbers and the descending
    rows non-increasing numbers, first to last. *)
Theorem sorted_numeric_column (js_lt : Value -> Value -> bool)
  (p : TableProps) (s : State) (k : string) (d : Direction)
  (col : TableColumn.t) (num : gmap string Value -> Z) :
  (forall x y, js_lt (VNum x) (VNum y) = (x <? y)) ->
  key (sortState s) = Some k -> k <> EmptyString ->
  direction (sortState s) = Some d ->
  findColumn p k = Some col ->
  (forall r, In r (data p) -> cellOf col k r = VNum (num r)) ->
  StronglySorted
    (fun a b => match d with asc => num a <= num b | desc => num b <= num a end)
    (sortedData js_lt p s).
Proof.
  intros Hlt Hk Hne Hd Hcol Hnum. unfold sortedData. rewrite Hk, Hd.
  rewrite bool_decide_eq_false_2 by exact Hne.
  apply (sort_sorted _ _ (fun r => In r (data p))).
  - intros a b c. destruct d; lia.
  - intros a b Ha Hb. unfold compareRows.
    rewrite Hcol, (Hnum a Ha), (Hnum b Hb), !Hlt.
    destruct (Z.ltb_spec (num a) (num b)), (Z.ltb_spec (num b) (num a)), d;
      split; lia.
  - apply Forall_forall. intros r Hr. apply list_elem_of_In, Hr.
Qed.

Lemma sorted_numeric_column_witness :
  let p := tableProps sampleData 10 in
  let s := run prim_lt init [(p, HeaderClick 1)] in
  let age := fun r : gmap string Value =>
               match field r "age" with VNum n => n | _ => 0 end in
  key (sortState s) = Some "age" /\ direction (sortState s) = Some asc /\
  List.map age (sortedData prim_lt p s) = [28; 29; 32; 38; 45] /\
  StronglySorted (fun a b => age a <= age b) (sortedData prim_lt p s).
Proof.
  split; [reflexivity|]. split; [reflexivity|]. split; [vm_compute; reflexivity|].
  apply (sorted_numeric_column prim_lt (tableProps sampleData 10)
           (run prim_lt init [(tableProps sampleData 10, HeaderClick 1)])
           "age" asc (column "age" (Some true))
           (fun r => match field r "age" with VNum n => n | _ => 0 end)).
  - intros x y. reflexivity.
  - reflexivity.
  - discriminate.
  - reflexivity.
  - reflexivity.
  - intros r Hr. simpl in Hr.
    destruct Hr as [<-|[<-|[<-|[<-|[<-|[]]]]]]; reflexivity.
Defined.

End TableExtra.
